(** * Universal job scraper: a shallow embedding and its verified properties

    The development follows [universal_job_scraper.py]: the selector
    extractor, the listing scanner, the detail fetcher, the paginator, the
    sanitizer and the crawl loop of [UniversalJobScraper.scrape_site].

    Python values are modelled as follows.
    - [str] is [string]; a character is one code point below 256.
    - A job record ([Dict[str, str]]) is a [gmap string string]; the order
      of its keys plays no part in the code. Attribute values are strings
      (the multi-valued attributes, which BeautifulSoup returns as lists,
      are left out).
    - The set [seen_urls] is a [gset string].
    - Python [int] is [Z].
    - A caught exception is the constructor [Raised] of [result].
    - The collaborators that live outside the repository (BeautifulSoup and
      its CSS engine, the HTTP transport, the clock, the IP-literal check of
      [urllib.parse]) are the fields of the classes [Soup], [World] and
      [Ipaddress].
    - Logging and the optional [time.sleep] between requests change no
      value and are left out. *)

From Stdlib Require Import ZArith Ascii String List Bool Lia.
From stdpp Require Import base option gmap strings list.

Set Warnings "-clear-no-such-hyp".

Local Open Scope string_scope.
Local Open Scope list_scope.
Local Open Scope Z_scope.

(** ** Exceptions *)

Inductive result (A : Type) : Type :=
| Ok (a : A)
| Raised.
Arguments Ok {A} a.
Arguments Raised {A}.

Definition rbind {A B : Type} (r : result A) (k : A -> result B) : result B :=
  match r with
  | Ok a => k a
  | Raised => Raised
  end.

Notation "x <-! r ;! k" := (rbind r (fun x => k))
  (at level 20, r at level 100, k at level 200, only parsing).

(** ** Python string primitives *)

Module Py.

(** Truth value of a [str]: non-empty. *)
Definition truthy (s : string) : bool :=
  match s with
  | EmptyString => false
  | String _ _ => true
  end.

(** Truth value of [d.get(k)] and of an [Optional[str]]. *)
Definition truthy_opt (o : option string) : bool :=
  match o with
  | Some s => truthy s
  | None => false
  end.

(** [s.startswith(p)] *)
Fixpoint startswith (p s : string) : bool :=
  match p, s with
  | EmptyString, _ => true
  | String a p', String b s' => Ascii.eqb a b && startswith p' s'
  | String _ _, EmptyString => false
  end.

(** [s.find(sub)], [None] standing for -1. *)
Fixpoint find (sub s : string) : option nat :=
  if startswith sub s then Some 0%nat
  else match s with
       | EmptyString => None
       | String _ s' => S <$> find sub s'
       end.

(** [sub in s] *)
Definition contains (sub s : string) : bool :=
  match find sub s with
  | Some _ => true
  | None => false
  end.

(** [c in s] for a single character. *)
Fixpoint has_char (c : ascii) (s : string) : bool :=
  match s with
  | EmptyString => false
  | String a s' => Ascii.eqb a c || has_char c s'
  end.

(** [s[n:]] *)
Fixpoint drop (n : nat) (s : string) : string :=
  match n, s with
  | O, _ => s
  | S n', String _ s' => drop n' s'
  | S _, EmptyString => EmptyString
  end.

(** [s[:n]] *)
Fixpoint take (n : nat) (s : string) : string :=
  match n, s with
  | S n', String a s' => String a (take n' s')
  | _, _ => EmptyString
  end.

(** [s.split(c)] for a one-character separator: never the empty list. *)
Fixpoint split (c : ascii) (s : string) : list string :=
  match s with
  | EmptyString => [EmptyString]
  | String a s' =>
      if Ascii.eqb a c then EmptyString :: split c s'
      else match split c s' with
           | h :: t => String a h :: t
           | [] => [String a EmptyString]
           end
  end.

(** [c.join(l)] *)
Fixpoint join (c : ascii) (l : list string) : string :=
  match l with
  | [] => EmptyString
  | [x] => x
  | x :: rest => x +:+ String c (join c rest)
  end.

(** [s.split(sep)[0]] for a non-empty separator: the text before the first
    occurrence of [sep], the whole of [s] when there is none. *)
Fixpoint before (sep s : string) : string :=
  if startswith sep s then EmptyString
  else match s with
       | EmptyString => EmptyString
       | String a s' => String a (before sep s')
       end.

(** [s.split(c, 1)] when [c in s]: the text before and after the first [c]. *)
Fixpoint partition (c : ascii) (s : string) : string * string :=
  match s with
  | EmptyString => (EmptyString, EmptyString)
  | String a s' =>
      if Ascii.eqb a c then (EmptyString, s')
      else let '(l, r) := partition c s' in (String a l, r)
  end.

(** [s.replace(sub, '')] for a non-empty [sub]: occurrences are removed left
    to right without overlap. [skip] counts the characters of the occurrence
    being removed that are still to be dropped. *)
Fixpoint remove_from (sub : string) (skip : nat) (s : string) : string :=
  match s with
  | EmptyString => EmptyString
  | String a s' =>
      match skip with
      | S k => remove_from sub k s'
      | O =>
          if startswith sub s then remove_from sub (String.length sub - 1) s'
          else String a (remove_from sub 0 s')
      end
  end.

Definition remove (sub s : string) : string := remove_from sub 0 s.

(** [c.isspace()] below code point 256. *)
Definition isspace (c : ascii) : bool :=
  let n := nat_of_ascii c in
  ((9 <=? n) && (n <=? 13) || (28 <=? n) && (n <=? 32)
   || (n =? 133) || (n =? 160))%nat.

Fixpoint lstrip_by (f : ascii -> bool) (s : string) : string :=
  match s with
  | EmptyString => EmptyString
  | String a s' => if f a then lstrip_by f s' else s
  end.

Fixpoint rstrip_by (f : ascii -> bool) (s : string) : string :=
  match s with
  | EmptyString => EmptyString
  | String a s' =>
      let r := rstrip_by f s' in
      if f a && negb (truthy r) then EmptyString else String a r
  end.

Definition strip_by (f : ascii -> bool) (s : string) : string :=
  rstrip_by f (lstrip_by f s).

(** [s.strip()] *)
Definition strip (s : string) : string := strip_by isspace s.

Definition isdigit (c : ascii) : bool :=
  let n := nat_of_ascii c in ((48 <=? n) && (n <=? 57))%nat.

Definition isupper (c : ascii) : bool :=
  let n := nat_of_ascii c in ((65 <=? n) && (n <=? 90))%nat.

Definition islower (c : ascii) : bool :=
  let n := nat_of_ascii c in ((97 <=? n) && (n <=? 122))%nat.

(** [c.isascii() and c.isalpha()] *)
Definition isasciialpha (c : ascii) : bool := isupper c || islower c.

Definition lower_char (c : ascii) : ascii :=
  if isupper c then ascii_of_nat (nat_of_ascii c + 32) else c.

(** [s.lower()] on ASCII letters; the characters a scheme can hold. *)
Fixpoint lower (s : string) : string :=
  match s with
  | EmptyString => EmptyString
  | String a s' => String (lower_char a) (lower s')
  end.

Fixpoint forallb_str (f : ascii -> bool) (s : string) : bool :=
  match s with
  | EmptyString => true
  | String a s' => f a && forallb_str f s'
  end.

(** The longest prefix of decimal digits: what [\d+] consumes. *)
Fixpoint take_digits (s : string) : string :=
  match s with
  | EmptyString => EmptyString
  | String a s' => if isdigit a then String a (take_digits s') else EmptyString
  end.

(** Digits limit of [int(str)] and [str(int)] ([sys.int_info], 4300). *)
Definition int_max_str_digits : nat := 4300.

Fixpoint int_of_digits (acc : Z) (s : string) : Z :=
  match s with
  | EmptyString => acc
  | String a s' => int_of_digits (10 * acc + (Z.of_nat (nat_of_ascii a) - 48)) s'
  end.

(** [int(s)] for a non-empty string of decimal digits. *)
Definition int (s : string) : result Z :=
  if (int_max_str_digits <? String.length s)%nat then Raised
  else Ok (int_of_digits 0 s).

Definition digit_char (d : Z) : ascii := ascii_of_nat (Z.to_nat (48 + d)).

Fixpoint digits_of (fuel : nat) (n : Z) (acc : string) : string :=
  match fuel with
  | O => acc
  | S fuel' =>
      let acc' := String (digit_char (n mod 10)) acc in
      if n <? 10 then acc' else digits_of fuel' (n / 10) acc'
  end.

(** [str(n)], which is what an f-string writes for an [int]. *)
Definition str (n : Z) : result string :=
  let body := digits_of (S (Z.to_nat (Z.log2 (Z.abs n)))) (Z.abs n) EmptyString in
  if (int_max_str_digits <? String.length body)%nat then Raised
  else Ok (if n <? 0 then String "-" body else body).

(** [re.search(r'::attr\(([^)]+)\)', s)]: group 1 of the leftmost match. *)
Fixpoint until_paren (s : string) : option string :=
  match s with
  | EmptyString => None
  | String a s' =>
      if Ascii.eqb a ")" then Some EmptyString
      else String a <$> until_paren s'
  end.

Definition match_attr_here (s : string) : option string :=
  if startswith "::attr(" s then
    match until_paren (drop 7 s) with
    | Some g => if truthy g then Some g else None
    | None => None
    end
  else None.

Fixpoint re_search_attr (s : string) : option string :=
  match match_attr_here s with
  | Some g => Some g
  | None =>
      match s with
      | EmptyString => None
      | String _ s' => re_search_attr s'
      end
  end.

(** [re.search(r'page=(\d+)', s)]: group 1 of the leftmost match. *)
Definition match_page_here (s : string) : option string :=
  if startswith "page=" s then
    let d := take_digits (drop 5 s) in
    if truthy d then Some d else None
  else None.

Fixpoint re_search_page (s : string) : option string :=
  match match_page_here s with
  | Some g => Some g
  | None =>
      match s with
      | EmptyString => None
      | String _ s' => re_search_page s'
      end
  end.

End Py.

(** ** [urllib.parse]

    [urlsplit], [urlparse], [urlunsplit], [urlunparse] and [urljoin] of
    CPython 3.11, for [str] arguments and [allow_fragments=True]. A
    [ValueError] is [Raised]. The validation of a bracketed host, which
    CPython delegates to the [ipaddress] module, is the one field of
    [Ipaddress]. [_checknetloc] is the identity below code point 256: no
    such character normalises under NFKC to one of [/?#@:]. *)

Class Ipaddress := {
  (** [_check_bracketed_netloc(netloc)] returns without raising. *)
  check_bracketed_netloc : string -> bool
}.

Module urllib.

Definition uses_relative : list string :=
  [""; "ftp"; "http"; "gopher"; "nntp"; "imap"; "wais"; "file"; "https";
   "shttp"; "mms"; "prospero"; "rtsp"; "rtspu"; "sftp"; "svn"; "svn+ssh";
   "ws"; "wss"].

Definition uses_netloc : list string :=
  [""; "ftp"; "http"; "gopher"; "nntp"; "telnet"; "imap"; "wais"; "file";
   "mms"; "https"; "shttp"; "snews"; "prospero"; "rtsp"; "rtspu"; "rsync";
   "svn"; "svn+ssh"; "sftp"; "nfs"; "git"; "git+ssh"; "ws"; "wss"].

Definition uses_params : list string :=
  [""; "ftp"; "hdl"; "prospero"; "http"; "imap"; "https"; "shttp"; "rtsp";
   "rtspu"; "sip"; "sips"; "mms"; "sftp"; "tel"].

Definition mem (s : string) (l : list string) : bool :=
  existsb (String.eqb s) l.

(** [c in scheme_chars] *)
Definition scheme_char (c : ascii) : bool :=
  Py.isasciialpha c || Py.isdigit c
  || Ascii.eqb c "+" || Ascii.eqb c "-" || Ascii.eqb c ".".

(** [c in _WHATWG_C0_CONTROL_OR_SPACE] *)
Definition c0_or_space (c : ascii) : bool := (nat_of_ascii c <=? 32)%nat.

(** The loop over [_UNSAFE_URL_BYTES_TO_REMOVE]. *)
Definition remove_unsafe (s : string) : string :=
  Py.remove (String "010" "") (Py.remove (String "013" "") (Py.remove (String "009" "") s)).

(** [url.find(c, start)] cut to the suffix it searches. *)
Fixpoint find_delim (s : string) : nat :=
  match s with
  | EmptyString => 0%nat
  | String a s' =>
      if Ascii.eqb a "/" || Ascii.eqb a "?" || Ascii.eqb a "#" then 0%nat
      else S (find_delim s')
  end.

(** [_splitnetloc(url, 2)] applied to the text after the two slashes. *)
Definition _splitnetloc (rest : string) : string * string :=
  let delim := find_delim rest in
  (Py.take delim rest, Py.drop delim rest).

Record SplitResult := {
  scheme : string;
  netloc : string;
  path : string;
  query : string;
  fragment : string
}.

Record ParseResult := {
  pscheme : string;
  pnetloc : string;
  ppath : string;
  pparams : string;
  pquery : string;
  pfragment : string
}.

(** The scheme test of [urlsplit]: [Some (scheme, rest)] when the text up
    to the first colon is a scheme. *)
Definition split_scheme (url : string) : option (string * string) :=
  match Py.find ":" url, url with
  | Some (S i), String c _ =>
      if Py.isasciialpha c && Py.forallb_str scheme_char (Py.take (S i) url)
      then Some (Py.lower (Py.take (S i) url), Py.drop (S (S i)) url)
      else None
  | _, _ => None
  end.

Section with_ipaddress.
Context {ip : Ipaddress}.

Definition urlsplit (url scheme0 : string) : result SplitResult :=
  let url := Py.lstrip_by c0_or_space url in
  let scheme0 := Py.strip_by c0_or_space scheme0 in
  let url := remove_unsafe url in
  let scheme0 := remove_unsafe scheme0 in
  let '(sch, url) :=
    match split_scheme url with
    | Some p => p
    | None => (scheme0, url)
    end in
  nr <-!
    (if Py.startswith "//" url then
       let '(net, rest) := _splitnetloc (Py.drop 2 url) in
       let lb := Py.has_char "[" net in
       let rb := Py.has_char "]" net in
       if (lb && negb rb) || (rb && negb lb) then Raised
       else if lb && rb && negb (check_bracketed_netloc net) then Raised
       else Ok (net, rest)
     else Ok (EmptyString, url)) ;!
  let '(net, url) := nr in
  let '(url, frag) :=
    if Py.has_char "#" url then Py.partition "#" url else (url, EmptyString) in
  let '(url, qry) :=
    if Py.has_char "?" url then Py.partition "?" url else (url, EmptyString) in
  Ok {| scheme := sch; netloc := net; path := url; query := qry; fragment := frag |}.

(** [url.rfind('/')] as the text from the last slash on. *)
Fixpoint from_last_slash (s : string) : string :=
  match s with
  | EmptyString => EmptyString
  | String a s' =>
      if Py.has_char "/" s' then from_last_slash s' else s
  end.

Definition _splitparams (url : string) : string * string :=
  if Py.has_char "/" url then
    let tail := from_last_slash url in
    let head_len := (String.length url - String.length tail)%nat in
    match Py.find ";" tail with
    | None => (url, EmptyString)
    | Some i => (Py.take (head_len + i) url, Py.drop (head_len + i + 1) url)
    end
  else
    match Py.find ";" url with
    | None => (Py.take (String.length url - 1) url, url)
    | Some i => (Py.take i url, Py.drop (i + 1) url)
    end.

Definition urlparse (url scheme0 : string) : result ParseResult :=
  r <-! urlsplit url scheme0 ;!
  let '(url', params) :=
    if mem (scheme r) uses_params && Py.has_char ";" (path r)
    then _splitparams (path r)
    else (path r, EmptyString) in
  Ok {| pscheme := scheme r; pnetloc := netloc r; ppath := url';
        pparams := params; pquery := query r; pfragment := fragment r |}.

Definition urlunsplit (sch net url qry frag : string) : string :=
  let url :=
    if Py.truthy net
       || (Py.truthy sch && mem sch uses_netloc && negb (Py.startswith "//" url))
    then
      let url := if Py.truthy url && negb (Py.startswith "/" url)
                 then "/" +:+ url else url in
      "//" +:+ net +:+ url
    else url in
  let url := if Py.truthy sch then sch +:+ ":" +:+ url else url in
  let url := if Py.truthy qry then url +:+ "?" +:+ qry else url in
  let url := if Py.truthy frag then url +:+ "#" +:+ frag else url in
  url.

Definition urlunparse (sch net url params qry frag : string) : string :=
  let url := if Py.truthy params then url +:+ ";" +:+ params else url in
  urlunsplit sch net url qry frag.

(** [segments[1:-1] = filter(None, segments[1:-1])] *)
Definition filter_middle (segments : list string) : list string :=
  match segments with
  | [] => []
  | first :: rest =>
      match rev rest with
      | [] => [first]
      | last :: mid_rev =>
          first :: List.filter Py.truthy (rev mid_rev) ++ [last]
      end
  end.

(** The loop that resolves dot segments; [resolved.pop()] on an empty list
    is the ignored [IndexError]. *)
Fixpoint resolve_segments (segments resolved : list string) : list string :=
  match segments with
  | [] => resolved
  | seg :: rest =>
      if String.eqb seg ".." then resolve_segments rest (removelast resolved)
      else if String.eqb seg "." then resolve_segments rest resolved
      else resolve_segments rest (resolved ++ [seg])
  end.

Definition urljoin (base url : string) : result string :=
  if negb (Py.truthy base) then Ok url
  else if negb (Py.truthy url) then Ok base
  else
    b <-! urlparse base EmptyString ;!
    u <-! urlparse url (pscheme b) ;!
    if negb (String.eqb (pscheme u) (pscheme b))
       || negb (mem (pscheme u) uses_relative)
    then Ok url
    else if mem (pscheme u) uses_netloc && Py.truthy (pnetloc u)
    then Ok (urlunparse (pscheme u) (pnetloc u) (ppath u) (pparams u)
               (pquery u) (pfragment u))
    else
      let net := if mem (pscheme u) uses_netloc then pnetloc b else pnetloc u in
      if negb (Py.truthy (ppath u)) && negb (Py.truthy (pparams u))
      then Ok (urlunparse (pscheme u) net (ppath b) (pparams b)
                 (if Py.truthy (pquery u) then pquery u else pquery b)
                 (pfragment u))
      else
        let base_parts := Py.split "/" (ppath b) in
        let base_parts :=
          if Py.truthy (List.last base_parts EmptyString)
          then removelast base_parts else base_parts in
        let segments :=
          if Py.startswith "/" (ppath u) then Py.split "/" (ppath u)
          else filter_middle (base_parts ++ Py.split "/" (ppath u)) in
        let resolved := resolve_segments segments [] in
        let last_seg := List.last segments EmptyString in
        let resolved :=
          if String.eqb last_seg "." || String.eqb last_seg ".."
          then resolved ++ [EmptyString] else resolved in
        let joined := Py.join "/" resolved in
        Ok (urlunparse (pscheme u) net
              (if Py.truthy joined then joined else "/")
              (pparams u) (pquery u) (pfragment u)).

(** A [.] or [..] segment. *)
Definition dot_segment (seg : string) : bool :=
  String.eqb seg "." || String.eqb seg "..".

(** The path of a link has a dot segment. *)
Definition has_dot_segment (link : string) : bool :=
  match urlparse link EmptyString with
  | Ok u => existsb dot_segment (Py.split "/" (ppath u))
  | Raised => false
  end.

(** A link that has neither scheme nor network location, parsed and put
    together again. *)
Definition reassembled (link : string) : result string :=
  u <-! urlparse link EmptyString ;!
  Ok (urlunparse EmptyString EmptyString (ppath u) (pparams u) (pquery u) (pfragment u)).

End with_ipaddress.

End urllib.

(** ** The collaborators outside the repository *)

(** BeautifulSoup with its CSS engine. *)
Class Soup := {
  node : Type;
  (** [BeautifulSoup(html, 'html.parser')] *)
  parse : string -> node;
  (** [n.select(css)]: the matches in document order; [Raised] when the CSS
      engine rejects [css]. *)
  select : node -> string -> result (list node);
  (** [elem.get_text(strip=True)] *)
  get_text : node -> string;
  (** The attribute [name] of [elem], [None] when it has none. *)
  get_attr : node -> string -> option string
}.

(** The network and the clock. *)
Class World := {
  world : Type;
  (** The HTTP request of [get_page_content]: [response.text], or [None]
      when the request raises. *)
  http_get : string -> world -> option string * world;
  (** [datetime.utcnow().isoformat()] *)
  utcnow : world -> string * world
}.

(** ** The canonical record *)

Module JobData.

Record t := {
  url : string;
  title : string;
  company : string;
  location : string;
  description : string;
  full_description : string;
  requirements : string;
  posted_date : string;
  job_type : string;
  department : string;
  experience_level : string;
  salary : string;
  benefits : string;
  closing_date : string;
  work_arrangement : string;
  travel_required : string;
  eligibility : string;
  clearance : string;
  physical_requirements : string;
  equal_opportunity : string;
  job_id : string;
  source_site : string;
  scraped_at : string
}.

(** [JobData.__dataclass_fields__.keys()] *)
Definition fields : list string :=
  ["url"; "title"; "company"; "location"; "description"; "full_description";
   "requirements"; "posted_date"; "job_type"; "department";
   "experience_level"; "salary"; "benefits"; "closing_date";
   "work_arrangement"; "travel_required"; "eligibility"; "clearance";
   "physical_requirements"; "equal_opportunity"; "job_id"; "source_site";
   "scraped_at"].

(** The constructor [JobData] called with the entries of [d] as keyword
    arguments, for a dictionary whose keys are all in [fields]: a field
    absent from [d] takes its default, the empty string. *)
Definition of_dict (d : gmap string string) : t :=
  let f k := default EmptyString (d !! k) in
  {| url := f "url"; title := f "title"; company := f "company";
     location := f "location"; description := f "description";
     full_description := f "full_description";
     requirements := f "requirements"; posted_date := f "posted_date";
     job_type := f "job_type"; department := f "department";
     experience_level := f "experience_level"; salary := f "salary";
     benefits := f "benefits"; closing_date := f "closing_date";
     work_arrangement := f "work_arrangement";
     travel_required := f "travel_required"; eligibility := f "eligibility";
     clearance := f "clearance";
     physical_requirements := f "physical_requirements";
     equal_opportunity := f "equal_opportunity"; job_id := f "job_id";
     source_site := f "source_site"; scraped_at := f "scraped_at" |}.

(** [dataclasses.asdict(row)] *)
Definition asdict (r : t) : gmap string string :=
  list_to_map
    [("url", url r); ("title", title r); ("company", company r);
     ("location", location r); ("description", description r);
     ("full_description", full_description r); ("requirements", requirements r);
     ("posted_date", posted_date r); ("job_type", job_type r);
     ("department", department r); ("experience_level", experience_level r);
     ("salary", salary r); ("benefits", benefits r);
     ("closing_date", closing_date r); ("work_arrangement", work_arrangement r);
     ("travel_required", travel_required r); ("eligibility", eligibility r);
     ("clearance", clearance r);
     ("physical_requirements", physical_requirements r);
     ("equal_opportunity", equal_opportunity r); ("job_id", job_id r);
     ("source_site", source_site r); ("scraped_at", scraped_at r)].

End JobData.

(** ** The site profile

    Each field holds what the code reads with [.get(key, default)]. *)

Record Pagination := {
  (** [pagination.get('next_page_selector', '')] *)
  next_page_selector : string;
  (** [pagination.get('use_javascript', False)] *)
  use_javascript : bool;
  (** [pagination.get('max_pages', 10)] *)
  max_pages : Z
}.

Record Config := {
  (** [config.get('site_name', 'Unknown')] *)
  site_name : string;
  (** [config.get('start_url', '')] *)
  start_url : string;
  (** The string-valued entries of [config['selectors']], in file order;
      [job_container] is one of them. *)
  selectors : list (string * string);
  (** [selectors.get('job_detail_selectors', {})], in file order. *)
  job_detail_selectors : list (string * string);
  pagination : Pagination
}.

Fixpoint assoc (k : string) (l : list (string * string)) : option string :=
  match l with
  | [] => None
  | (k', v) :: rest => if String.eqb k k' then Some v else assoc k rest
  end.

(** [selectors.get('job_container', '')] *)
Definition job_container (config : Config) : string :=
  default EmptyString (assoc "job_container" (selectors config)).

(** ** The effects of a crawl

    A call of [get_page_content] and a call of [save_job_to_database] are
    the two effects a crawl has on its collaborators; the machine state
    records them in order. [Purpose] tells the call in the page loop of
    [scrape_site] from the one in [scrape_job_details]. *)

Inductive Purpose := Listing | Detail.

Inductive Event :=
| Fetch (p : Purpose) (url : string)
| Save (row : JobData.t).

(** The rows handed to the sink, in order. *)
Definition saved (log : list Event) : list JobData.t :=
  omap (fun e => match e with Save row => Some row | Fetch _ _ => None end) log.

(** The URLs of the listing pages requested, in order. *)
Definition listing_fetches (log : list Event) : list string :=
  omap (fun e => match e with Fetch Listing url => Some url | _ => None end) log.

(** The URLs of the detail pages requested, in order. *)
Definition detail_fetches (log : list Event) : list string :=
  omap (fun e => match e with Fetch Detail url => Some url | _ => None end) log.

Abbreviation job := (gmap string string).

Section scraper.
Context {ip : Ipaddress} {bs : Soup} {web : World}.

Record Machine := {
  mworld : world;
  mlog : list Event
}.

Definition get_page_content (p : Purpose) (url : string) (m : Machine)
  : option string * Machine :=
  let '(r, w) := http_get url (mworld m) in
  (r, {| mworld := w; mlog := mlog m ++ [Fetch p url] |}).

(** *** [_sanitize_job_fields] *)

(** The in-place updates of the [try] block, before the filter. *)
Definition map_aliases (job_data : job) : job :=
  let job_data :=
    match job_data !! "date_posted" with
    | Some date_posted =>
        let job_data :=
          if negb (Py.truthy_opt (job_data !! "posted_date")) && Py.truthy date_posted
          then <["posted_date" := date_posted]> job_data
          else job_data in
        delete "date_posted" job_data
    | None => job_data
    end in
  match job_data !! "apply_url" with
  | Some apply_url =>
      if Py.truthy apply_url && negb (Py.truthy_opt (job_data !! "url"))
      then <["url" := apply_url]> job_data
      else job_data
  | None => job_data
  end.

Definition allowed (k : string) : bool := urllib.mem k JobData.fields.

Definition _sanitize_job_fields (job_data : job) : job :=
  filter (fun kv => allowed kv.1 = true) (map_aliases job_data).

(** *** [extract_text_from_selector] *)

(** [n.select_one(css)] *)
Definition select_one (n : node) (css : string) : result (option node) :=
  l <-! select n css ;!
  Ok (head l).

(** [elem.get(name, "")] *)
Definition get (elem : node) (name : string) : string :=
  default EmptyString (get_attr elem name).

(** One pass of the inner [try]: [Ok (Some v)] is [return v], [Ok None]
    falls through to the next alternative, [Raised] is the logged
    exception followed by [continue]. *)
Definition try_selector (target : node) (sel : string) : result (option string) :=
  if Py.contains "::text" sel then
    elem <-! select_one target (Py.remove "::text" sel) ;!
    Ok (get_text <$> elem)
  else if Py.contains "::attr(" sel then
    match Py.re_search_attr sel with
    | Some attr_name =>
        elem <-! select_one target (Py.before "::attr(" sel) ;!
        Ok ((fun e => get e attr_name) <$> elem)
    | None => Ok None
    end
  else
    elem <-! select_one target sel ;!
    Ok (get_text <$> elem).

Fixpoint first_selector (target : node) (sels : list string) : string :=
  match sels with
  | [] => EmptyString
  | sel :: rest =>
      match try_selector target sel with
      | Ok (Some v) => v
      | Ok None | Raised => first_selector target rest
      end
  end.

Definition extract_text_from_selector
  (soup : node) (selector : string) (element : option node) : string :=
  let target := default soup element in
  first_selector target (map Py.strip (Py.split "," selector)).

(** *** [scrape_job_listings] *)

(** The loop over [selectors.items()] for one container. *)
Fixpoint extract_fields (soup container : node) (sels : list (string * string))
  (job_data : job) : job :=
  match sels with
  | [] => job_data
  | (field, selector) :: rest =>
      let job_data :=
        if String.eqb field "job_container" || String.eqb field "job_detail_selectors"
        then job_data
        else if String.eqb field "date_posted"
        then <["posted_date" := extract_text_from_selector soup selector (Some container)]> job_data
        else <[field := extract_text_from_selector soup selector (Some container)]> job_data in
      extract_fields soup container rest job_data
  end.

(** Lines 242-250: a link that starts with a slash is made absolute. *)
Definition absolute_apply_url (config : Config) (job_data : job) : result job :=
  match job_data !! "apply_url" with
  | Some apply_url =>
      if Py.truthy apply_url && Py.startswith "/" apply_url then
        let base_url := start_url config in
        if Py.contains "wd1.myworkdayjobs.com" base_url then
          parsed <-! urllib.urlparse base_url EmptyString ;!
          Ok (<["apply_url" := urllib.pscheme parsed +:+ "://" +:+ urllib.pnetloc parsed +:+ apply_url]> job_data)
        else
          joined <-! urllib.urljoin base_url apply_url ;!
          Ok (<["apply_url" := joined]> job_data)
      else Ok job_data
  | None => Ok job_data
  end.

(** The metadata and the [url] field (lines 252-258). *)
Definition stamp (config : Config) (now : string) (job_data : job) : job :=
  let job_data := <["source_site" := site_name config]> job_data in
  let job_data := <["scraped_at" := now]> job_data in
  match job_data !! "apply_url" with
  | Some apply_url =>
      if Py.truthy apply_url then <["url" := apply_url]> job_data else job_data
  | None => job_data
  end.

(** [job_data.get('title') and job_data.get('apply_url')] *)
Definition valid (job_data : job) : bool :=
  Py.truthy_opt (job_data !! "title") && Py.truthy_opt (job_data !! "apply_url").

(** [job['apply_url']], read where the code has checked that it is there. *)
Definition apply_url_of (job_data : job) : string :=
  default EmptyString (job_data !! "apply_url").

(** The loop over [job_containers]. An exception leaves the loop and the
    function returns the jobs appended so far. *)
Fixpoint scan_containers (config : Config) (soup : node) (containers : list node)
  (seen_urls : gset string) (w : world) : list job * world :=
  match containers with
  | [] => ([], w)
  | container :: rest =>
      let job_data := extract_fields soup container (selectors config) ∅ in
      match absolute_apply_url config job_data with
      | Raised => ([], w)
      | Ok job_data =>
          let '(now, w) := utcnow w in
          let job_data := stamp config now job_data in
          if valid job_data then
            if bool_decide (apply_url_of job_data ∈ seen_urls) then
              scan_containers config soup rest seen_urls w
            else
              let '(jobs, w) :=
                scan_containers config soup rest
                  ({[apply_url_of job_data]} ∪ seen_urls) w in
              (job_data :: jobs, w)
          else scan_containers config soup rest seen_urls w
      end
  end.

Definition scrape_job_listings (html_content : string) (config : Config) (w : world)
  : list job * world :=
  let soup := parse html_content in
  match select soup (job_container config) with
  | Raised => ([], w)
  | Ok job_containers => scan_containers config soup job_containers ∅ w
  end.

(** *** [scrape_job_details] *)

(** Lines 278-286. *)
Definition absolute_job_url (config : Config) (job_url : string) : result string :=
  if Py.startswith "/" job_url then
    let base_url := start_url config in
    if Py.contains "wd1.myworkdayjobs.com" base_url then
      parsed <-! urllib.urlparse base_url EmptyString ;!
      Ok (urllib.pscheme parsed +:+ "://" +:+ urllib.pnetloc parsed +:+ job_url)
    else urllib.urljoin base_url job_url
  else Ok job_url.

(** The two ways of making a link absolute: scheme, network location and
    link written one after the other, and [urljoin]; [resolve] picks one as
    lines 245-250 and 280-286 do. *)
Definition scheme_host_join (base_url link : string) : result string :=
  parsed <-! urllib.urlparse base_url EmptyString ;!
  Ok (urllib.pscheme parsed +:+ "://" +:+ urllib.pnetloc parsed +:+ link).

Definition resolve (config : Config) (link : string) : result string :=
  if Py.contains "wd1.myworkdayjobs.com" (start_url config)
  then scheme_host_join (start_url config) link
  else urllib.urljoin (start_url config) link.

Fixpoint extract_details (soup : node) (sels : list (string * string))
  (job_details : job) : job :=
  match sels with
  | [] => job_details
  | (field, selector) :: rest =>
      extract_details soup rest
        (<[field := extract_text_from_selector soup selector None]> job_details)
  end.

Definition scrape_job_details (job_url : string) (config : Config) (m : Machine)
  : job * Machine :=
  match absolute_job_url config job_url with
  | Raised => (∅, m)
  | Ok job_url =>
      let '(html_content, m) := get_page_content Detail job_url m in
      match html_content with
      | Some html_content =>
          if Py.truthy html_content then
            let soup := parse html_content in
            (extract_details soup (job_detail_selectors config) ∅, m)
          else (∅, m)
      | None => (∅, m)
      end
  end.

(** *** The paginator *)

Definition handle_javascript_pagination (current_url : string) (config : Config)
  : option string :=
  let attempt : result (option string) :=
    current_page <-!
      (if Py.contains "page=" current_url then
         match Py.re_search_page current_url with
         | Some digits => Py.int digits
         | None => Ok 1
         end
       else Ok 1) ;!
    let next_page := current_page + 1 in
    shown <-! Py.str next_page ;!
    let next_url :=
      if Py.contains "?" current_url
      then current_url +:+ "&page=" +:+ shown
      else current_url +:+ "?page=" +:+ shown in
    if max_pages (pagination config) <? next_page then Ok None
    else Ok (Some next_url) in
  match attempt with
  | Ok r => r
  | Raised => None
  end.

(** The [try] block of [get_next_page_url] leaves in one of three ways: by a
    [return], by reaching its end, by an exception. *)
Inductive Exit (A : Type) : Type :=
| Return (a : A)
| Fallthrough
| Exception.
Arguments Return {A} a.
Arguments Fallthrough {A}.
Arguments Exception {A}.

Definition next_link (soup : node) (current_url next_page_selector : string)
  : Exit string :=
  if Py.truthy next_page_selector then
    match select_one soup next_page_selector with
    | Raised => Exception
    | Ok None => Fallthrough
    | Ok (Some next_element) =>
        (* [None] is the local [next_url] left unbound. *)
        let next_url :=
          if Py.contains "::attr(" next_page_selector then
            match Py.re_search_attr next_page_selector with
            | Some attr_name => Some (get next_element attr_name)
            | None => None
            end
          else Some (get next_element "href") in
        match next_url with
        | None => Exception
        | Some next_url =>
            if Py.truthy next_url then
              match urllib.urljoin current_url next_url with
              | Ok u => Return u
              | Raised => Exception
              end
            else Fallthrough
        end
    end
  else Fallthrough.

Definition get_next_page_url (html_content : string) (config : Config)
  (current_url : string) : option string :=
  let soup := parse html_content in
  match next_link soup current_url (next_page_selector (pagination config)) with
  | Return u => Some u
  | Exception => None
  | Fallthrough =>
      if use_javascript (pagination config)
      then handle_javascript_pagination current_url config
      else None
  end.

(** *** [save_job_to_database] *)

Definition save_job_to_database (job_data : job) (m : Machine) : Machine :=
  let job_data := _sanitize_job_fields job_data in
  {| mworld := mworld m; mlog := mlog m ++ [Save (JobData.of_dict job_data)] |}.

(** *** [scrape_site] *)

Record Crawl := {
  all_jobs : list job;
  seen_urls : gset string;
  current_url : option string;
  pages_scraped : Z;
  machine : Machine
}.

(** The filter of lines 425-431. *)
Fixpoint unique_jobs (page_jobs : list job) (seen : gset string)
  : list job * gset string :=
  match page_jobs with
  | [] => ([], seen)
  | job_data :: rest =>
      if Py.truthy_opt (job_data !! "apply_url")
         && bool_decide (apply_url_of job_data ∉ seen)
      then
        let '(unique, seen) := unique_jobs rest ({[apply_url_of job_data]} ∪ seen) in
        (job_data :: unique, seen)
      else unique_jobs rest seen
  end.

(** The loop of lines 437-449: [job.update(job_details)] is the union that
    prefers the detail fields. The optional [time.sleep] has no effect on
    the values. *)
Fixpoint detail_pass (config : Config) (jobs : list job) (m : Machine)
  : list job * Machine :=
  match jobs with
  | [] => ([], m)
  | job_data :: rest =>
      if Py.truthy_opt (job_data !! "apply_url") then
        let '(job_details, m) := scrape_job_details (apply_url_of job_data) config m in
        let job_data := job_details ∪ job_data in
        let m := save_job_to_database job_data m in
        let '(rest, m) := detail_pass config rest m in
        (job_data :: rest, m)
      else
        let '(rest, m) := detail_pass config rest m in
        (job_data :: rest, m)
  end.

Inductive Flow := Next | Break.

(** What one turn of the [while] loop computes, with the locals that the
    properties below speak about. *)
Record Page := {
  page_flow : Flow;
  page_jobs : list job;
  unique_page_jobs : list job;
  merged_page_jobs : list job;
  page_after : Crawl
}.

Definition scrape_page (config : Config) (scrape_details : bool) (st : Crawl) : Page :=
  let url := default EmptyString (current_url st) in
  let '(html_content, m) := get_page_content Listing url (machine st) in
  if negb (Py.truthy_opt html_content) then
    {| page_flow := Break; page_jobs := []; unique_page_jobs := [];
       merged_page_jobs := [];
       page_after := {| all_jobs := all_jobs st; seen_urls := seen_urls st;
                        current_url := current_url st;
                        pages_scraped := pages_scraped st; machine := m |} |}
  else
    let html_content := default EmptyString html_content in
    let '(scanned, w) := scrape_job_listings html_content config (mworld m) in
    let m := {| mworld := w; mlog := mlog m |} in
    let '(unique, seen) := unique_jobs scanned (seen_urls st) in
    let '(merged, m) :=
      if scrape_details then detail_pass config unique m else (unique, m) in
    {| page_flow := Next; page_jobs := scanned; unique_page_jobs := unique;
       merged_page_jobs := merged;
       page_after := {| all_jobs := all_jobs st ++ map _sanitize_job_fields merged;
                        seen_urls := seen;
                        current_url := get_next_page_url html_content config url;
                        pages_scraped := pages_scraped st + 1;
                        machine := m |} |}.

(** [current_url and pages_scraped < max_pages] *)
Definition loop_test (limit : Z) (st : Crawl) : bool :=
  Py.truthy_opt (current_url st) && (pages_scraped st <? limit).

Fixpoint scrape_loop (fuel : nat) (config : Config) (limit : Z)
  (scrape_details : bool) (st : Crawl) : Crawl :=
  match fuel with
  | O => st
  | S fuel =>
      if loop_test limit st then
        let p := scrape_page config scrape_details st in
        match page_flow p with
        | Break => page_after p
        | Next => scrape_loop fuel config limit scrape_details (page_after p)
        end
      else st
  end.

(** The turns the loop takes, in order. *)
Fixpoint turns (fuel : nat) (config : Config) (limit : Z)
  (scrape_details : bool) (st : Crawl) : list Page :=
  match fuel with
  | O => []
  | S fuel =>
      if loop_test limit st then
        let p := scrape_page config scrape_details st in
        p :: match page_flow p with
             | Break => []
             | Next => turns fuel config limit scrape_details (page_after p)
             end
      else []
  end.

(** The state after [k] turns that each fetched their listing page. *)
Fixpoint run_pages (k : nat) (config : Config) (limit : Z)
  (scrape_details : bool) (st : Crawl) : option Crawl :=
  match k with
  | O => Some st
  | S k =>
      if loop_test limit st then
        let p := scrape_page config scrape_details st in
        match page_flow p with
        | Break => None
        | Next => run_pages k config limit scrape_details (page_after p)
        end
      else None
  end.

Definition start (config : Config) (w : world) : Crawl :=
  {| all_jobs := []; seen_urls := ∅; current_url := Some (start_url config);
     pages_scraped := 0; machine := {| mworld := w; mlog := [] |} |}.

(** The whole run: every turn of the loop raises [pages_scraped] by one, so
    [max_pages] turns are all the loop can take. *)
Definition crawl (config : Config) (limit : Z) (scrape_details : bool) (w : world)
  : Crawl :=
  scrape_loop (Z.to_nat limit) config limit scrape_details (start config w).

(** [scrape_site(config_file, max_pages, scrape_job_details)], for the
    configuration that [load_config] returns. *)
Definition scrape_site (config : Config) (limit : Z) (scrape_details : bool)
  (w : world) : list job :=
  all_jobs (crawl config limit scrape_details w).

(** *** Vocabulary of the properties *)

(** What the listing scanner requires of a record it lets through. *)
Definition listed (j : job) : Prop :=
  valid j = true /\ j !! "url" = j !! "apply_url".

(** The fields a detail page can set are those the profile names. *)
Definition detail_fields (config : Config) (d : job) : Prop :=
  forall k, is_Some (d !! k) -> k ∈ map fst (job_detail_selectors config).

Definition row_of (j : job) : JobData.t := JobData.of_dict (_sanitize_job_fields j).

(** One merged record and the listing record it comes from. *)
Definition merged_from (config : Config) (flag : bool) (merged j : job) : Prop :=
  exists d : job,
    detail_fields config d /\ (flag = false -> d = ∅) /\ merged = d ∪ j.

(** The part of an alternative that goes to the CSS engine: the alternative
    without [::text], the text before [::attr(], or the alternative itself;
    none when [::attr(] is not followed by a name and a closing parenthesis,
    in which case the engine is not asked. *)
Definition css_part (sel : string) : option string :=
  if Py.contains "::text" sel then Some (Py.remove "::text" sel)
  else if Py.contains "::attr(" sel then
    match Py.re_search_attr sel with
    | Some _ => Some (Py.before "::attr(" sel)
    | None => None
    end
  else Some sel.

(** The CSS part of an alternative selects an element of [target]. *)
Definition finds (target : node) (sel : string) : bool :=
  match css_part sel with
  | Some css =>
      match select_one target css with
      | Ok (Some _) => true
      | Ok None | Raised => false
      end
  | None => false
  end.

(** What every record of a listing page carries. *)
Definition stamped (config : Config) (j : job) : Prop :=
  Py.truthy_opt (j !! "title") = true
  /\ Py.truthy_opt (j !! "apply_url") = true
  /\ j !! "url" = j !! "apply_url"
  /\ j !! "source_site" = Some (site_name config)
  /\ is_Some (j !! "scraped_at")
  /\ j !! "date_posted" = None
  /\ j !! "job_container" = None
  /\ j !! "job_detail_selectors" = None.

End scraper.

(** ** Several sites, and the export

    [load_config] reads a file of the configuration directory; what it
    returns for a file name is the one field of [ConfigDir], [None] standing
    for the empty dictionary of a file that is missing or does not parse. *)

Class ConfigDir := {
  load_config : string -> option Config
}.

(** A [Dict[str, List[Dict]]], in insertion order. *)
Abbreviation results := (list (string * list job)).

(** [d[k] = v]: the value of a key that is there is replaced where it
    stands, a new key goes to the end. *)
Fixpoint dict_set (k : string) (v : list job) (d : results) : results :=
  match d with
  | [] => [(k, v)]
  | (k', v') :: rest =>
      if String.eqb k k' then (k, v) :: rest else (k', v') :: dict_set k v rest
  end.

(** [d.get(k)] *)
Fixpoint dict_get (k : string) (d : results) : option (list job) :=
  match d with
  | [] => None
  | (k', v) :: rest => if String.eqb k k' then Some v else dict_get k rest
  end.

Section sites.
Context {ip : Ipaddress} {bs : Soup} {web : World} {dir : ConfigDir}.

(** [scrape_site(config_file, max_pages)] from the file name on, in a
    machine that has a past: the configuration is loaded, an empty one ends
    the call, and detail scraping is on by default. The effects of the
    crawl are written after those the machine has recorded. *)
Definition scrape_site_file (config_file : string) (limit : Z) (m : Machine)
  : list job * Machine :=
  match load_config config_file with
  | None => ([], m)
  | Some config =>
      let run := crawl config limit true (mworld m) in
      (all_jobs run,
       {| mworld := mworld (machine run); mlog := mlog m ++ mlog (machine run) |})
  end.

(** The loop of [scrape_multiple_sites]. *)
Fixpoint scrape_sites (config_files : list string) (max_pages_per_site : Z)
  (out : results) (m : Machine) : results * Machine :=
  match config_files with
  | [] => (out, m)
  | config_file :: rest =>
      let '(site_jobs, m) := scrape_site_file config_file max_pages_per_site m in
      scrape_sites rest max_pages_per_site (dict_set config_file site_jobs out) m
  end.

Definition scrape_multiple_sites (config_files : list string)
  (max_pages_per_site : Z) (m : Machine) : results * Machine :=
  scrape_sites config_files max_pages_per_site [] m.

End sites.

(** What [export_results] writes: the file name and what is serialized,
    the dictionary for JSON and the rows of the data frame for CSV. *)
Inductive Export :=
| JsonFile (filename : string) (content : results)
| CsvFile (filename : string) (rows : list job).

(** The two loops of the CSV branch: [job['source_site'] = site] updates the
    dictionary that [results] holds, and the same dictionary goes to
    [all_jobs]. The job dictionaries are distinct objects, as those that
    [scrape_multiple_sites] returns are. *)
Definition relabel (out : results) : results :=
  map (fun entry => (entry.1, map (fun j : job => <["source_site" := entry.1]> j) entry.2))
    out.

Definition flatten (out : results) : list job :=
  concat (map snd (relabel out)).

(** [export_results(results, format)], [timestamp] being what
    [datetime.now().strftime] returns: the file written and [results] as the
    call leaves it. With a format that is neither [json] nor [csv] the
    local [filename] is unbound where it is read, and the call raises.
    No character outside ASCII has a lower-case form with one of the
    letters of [json] or [csv], so that lowering the ASCII letters decides
    the two comparisons. *)
Definition export_results (out : results) (format timestamp : string)
  : result (Export * results) :=
  if String.eqb (Py.lower format) "json" then
    Ok (JsonFile ("job_results_" +:+ timestamp +:+ ".json") out, out)
  else if String.eqb (Py.lower format) "csv" then
    Ok (CsvFile ("job_results_" +:+ timestamp +:+ ".csv") (flatten out), relabel out)
  else Raised.

(** ** A small instance of the collaborators

    Documents are trees of elements. The CSS engine knows compound selectors
    made of a type and classes ([a], [.next], [a.next]) and, like the engine
    BeautifulSoup uses, rejects the empty selector and a pseudo-element
    suffix such as [::attr(href)]; the samples below use no other selector.
    A web site is a table from URLs to markup, and the parser knows a given
    list of documents by their markup. *)

Module Toy.

#[warnings="-register-all"]
Inductive element :=
| Element (tag : string) (classes : list string) (attrs : list (string * string))
    (text : string) (children : list element).

Definition tag_of (e : element) : string :=
  match e with Element t _ _ _ _ => t end.
Definition classes_of (e : element) : list string :=
  match e with Element _ c _ _ _ => c end.
Definition attrs_of (e : element) : list (string * string) :=
  match e with Element _ _ a _ _ => a end.

Fixpoint descendants (e : element) : list element :=
  match e with
  | Element _ _ _ _ children =>
      flat_map (fun c => c :: descendants c) children
  end.

Fixpoint text_of (e : element) : string :=
  match e with
  | Element _ _ _ text children =>
      Py.strip text +:+ fold_right (fun c acc => text_of c +:+ acc) EmptyString children
  end.

Definition matches (css : string) (e : element) : bool :=
  match Py.split "." css with
  | t :: cs =>
      (negb (Py.truthy t) || String.eqb t (tag_of e))
      && forallb (fun c => urllib.mem c (classes_of e)) cs
  | [] => false
  end.

Definition select_in (e : element) (css : string) : result (list element) :=
  if negb (Py.truthy css) || Py.has_char ":" css then Raised
  else Ok (List.filter (matches css) (descendants e)).

(** The markup of an element, and of a document. *)
Definition render_attr (kv : string * string) : string :=
  " " +:+ kv.1 +:+ "='" +:+ kv.2 +:+ "'".

Definition render_class (classes : list string) : list (string * string) :=
  match classes with
  | [] => []
  | _ :: _ => [("class", Py.join " " classes)]
  end.

Fixpoint render (e : element) : string :=
  match e with
  | Element tag classes attrs text children =>
      "<" +:+ tag
      +:+ fold_right (fun kv acc => render_attr kv +:+ acc) EmptyString
            (render_class classes ++ attrs)
      +:+ ">" +:+ text
      +:+ fold_right (fun c acc => render c +:+ acc) EmptyString children
      +:+ "</" +:+ tag +:+ ">"
  end.

Definition markup (doc : list element) : string :=
  fold_right (fun e acc => render e +:+ acc) EmptyString doc.

(** The parser knows the documents of [docs] by their markup; any other
    markup is an empty document. *)
Definition soup (docs : list (list element)) : Soup :=
  {| node := element;
     parse := fun html =>
       Element "[document]" [] [] EmptyString
         (default [] (List.find (fun doc => String.eqb html (markup doc)) docs));
     select := select_in;
     get_text := text_of;
     get_attr := fun e name => assoc name (attrs_of e) |}.

Definition web (site : list (string * string)) : World :=
  {| world := unit;
     http_get := fun url w => (assoc url site, w);
     utcnow := fun w => ("2024-01-01T00:00:00", w) |}.

Definition ipaddress : Ipaddress :=
  {| check_bracketed_netloc := fun _ => true |}.

Definition link (cls href text : string) : element :=
  Element "a" [cls] [("href", href)] text [].

Definition card (title href : string) : element :=
  Element "div" ["job"] [] EmptyString [link "t" href title].

End Toy.

(** ** Sample sites *)

(** A profile with synthetic paging. *)
Definition paged_config : Config :=
  {| site_name := "Paged"; start_url := "https://jobs.example.com/search";
     selectors := [("job_container", "div.job")];
     job_detail_selectors := [];
     pagination := {| next_page_selector := EmptyString; use_javascript := true;
                      max_pages := 10 |} |}.

(** A document with an empty element before a filled one. *)
Definition spans_doc : list Toy.element :=
  [Toy.Element "span" ["a"] [] EmptyString [];
   Toy.Element "span" ["b"] [] "X" []].

Definition spans_markup : string := Toy.markup spans_doc.

Definition spans_soup : Soup := Toy.soup [spans_doc].

(** A site of three listing pages chained by a next link; the second page
    repeats a job of the first. The profile sets [max_pages] to 1. *)
Definition acme_config : Config :=
  {| site_name := "Acme"; start_url := "https://acme.example/jobs";
     selectors := [("job_container", "div.job"); ("title", "a.t::text");
                   ("apply_url", "a.t::attr(href)")];
     job_detail_selectors := [("description", "p.d::text")];
     pagination := {| next_page_selector := "a.next"; use_javascript := false;
                      max_pages := 1 |} |}.

Definition page1 : list Toy.element :=
  [Toy.card "Dev" "/job/1"; Toy.card "Ops" "/job/2"; Toy.link "next" "/jobs?p=2" "more"].

Definition page2 : list Toy.element :=
  [Toy.card "Ops" "/job/2"; Toy.card "QA" "/job/3"; Toy.link "next" "/jobs?p=3" "more"].

Definition page3 : list Toy.element :=
  [Toy.card "Sales" "/job/4"; Toy.link "next" "/jobs?p=4" "more"].

Definition job1 : list Toy.element :=
  [Toy.Element "p" ["d"] [] " build things " []].

Definition job2 : list Toy.element :=
  [Toy.Element "h1" ["role"] [] "Operations" []].

(** A listing page whose only card has a link without a leading slash. *)
Definition page_relative : list Toy.element := [Toy.card "Dev" "job/9"].

Definition acme_soup : Soup :=
  Toy.soup [page1; page2; page3; job1; job2; page_relative].

Definition acme_web : World :=
  Toy.web
    [("https://acme.example/jobs", Toy.markup page1);
     ("https://acme.example/jobs?p=2", Toy.markup page2);
     ("https://acme.example/jobs?p=3", Toy.markup page3);
     ("https://acme.example/job/1", Toy.markup job1);
     ("https://acme.example/job/2", Toy.markup job2)].

(** The profile when its detail selectors name the title. *)
Definition acme_titled_config : Config :=
  {| site_name := "Acme"; start_url := "https://acme.example/jobs";
     selectors := selectors acme_config;
     job_detail_selectors := [("title", "h1.role::text"); ("description", "p.d::text")];
     pagination := pagination acme_config |}.

(** The profile when its detail selectors name [url] alone, and when they
    name [url] and [apply_url]; no detail page of the site has the element
    they look for. *)
Definition acme_canonical_config : Config :=
  {| site_name := "Acme"; start_url := "https://acme.example/jobs";
     selectors := selectors acme_config;
     job_detail_selectors := [("url", "a.canon::attr(href)")];
     pagination := pagination acme_config |}.

Definition acme_linked_config : Config :=
  {| site_name := "Acme"; start_url := "https://acme.example/jobs";
     selectors := selectors acme_config;
     job_detail_selectors := [("url", "a.canon::attr(href)");
                              ("apply_url", "a.canon::attr(href)")];
     pagination := pagination acme_config |}.

(** The profile when its next-page selector carries an attribute suffix. *)
Definition acme_attr_config : Config :=
  {| site_name := "Acme"; start_url := "https://acme.example/jobs";
     selectors := selectors acme_config;
     job_detail_selectors := job_detail_selectors acme_config;
     pagination := {| next_page_selector := "a.next::attr(href)";
                      use_javascript := false; max_pages := 1 |} |}.

(** The same site when its second listing page cannot be fetched. *)
Definition acme_web_down : World :=
  Toy.web
    [("https://acme.example/jobs", Toy.markup page1);
     ("https://acme.example/job/1", Toy.markup job1);
     ("https://acme.example/job/2", Toy.markup job2)].

Definition acme_machine : @Machine acme_web := @Build_Machine acme_web tt [].

Definition acme_crawl (limit : Z) (scrape_details : bool) : Crawl :=
  crawl (ip := Toy.ipaddress) (bs := acme_soup) (web := acme_web)
    acme_config limit scrape_details tt.

(** The profile of a site that has a single listing page. *)
Definition acme_unpaged_config : Config :=
  {| site_name := "Acme"; start_url := "https://acme.example/jobs";
     selectors := selectors acme_config;
     job_detail_selectors := job_detail_selectors acme_config;
     pagination := {| next_page_selector := EmptyString; use_javascript := false;
                      max_pages := 5 |} |}.

(** A configuration directory that holds the profile of the site. *)
Definition acme_dir : ConfigDir :=
  {| load_config := fun config_file =>
       if String.eqb config_file "acme.yaml" then Some acme_config else None |}.

(** A card whose link [urlparse] rejects. *)
Definition bad_card : Toy.element := Toy.card "Bad" "//[x".

(** * Properties *)

(** ** The string and URL primitives on sample inputs

    The values are those CPython 3.11 computes. *)

Example py_split_ex : Py.split "," "a, b,,c" = ["a"; " b"; ""; "c"].
Proof. reflexivity. Qed.
Example py_strip_ex : Py.strip "  a b  " = "a b".
Proof. reflexivity. Qed.
Example py_remove_ex : Py.remove "::text" "h1::text::text" = "h1".
Proof. reflexivity. Qed.
Example py_attr_ex : Py.re_search_attr "a.next::attr(href)" = Some "href".
Proof. reflexivity. Qed.
Example py_attr_ex2 : Py.re_search_attr "a::attr()b::attr(x)" = Some "x".
Proof. reflexivity. Qed.
Example py_page_ex : Py.re_search_page "http://x/?per_page=20&page=3" = Some "20".
Proof. reflexivity. Qed.
Example py_str_ex : Py.str 1203 = Ok "1203".
Proof. reflexivity. Qed.
Example py_str_ex0 : Py.str 0 = Ok "0".
Proof. reflexivity. Qed.
Example py_int_ex : Py.int "0042" = Ok 42.
Proof. reflexivity. Qed.

Example urljoin_rooted :
  urllib.urljoin (ip := Toy.ipaddress) "https://h/x" "/a;p?q#f" = Ok "https://h/a;p?q#f".
Proof. vm_compute. reflexivity. Qed.
Example urljoin_relative :
  urllib.urljoin (ip := Toy.ipaddress) "https://h/x/y/z?q=1" "../b/./c?page=2"
  = Ok "https://h/x/b/c?page=2".
Proof. vm_compute. reflexivity. Qed.
Example urljoin_query_only :
  urllib.urljoin (ip := Toy.ipaddress) "https://h/x/y/z?q=1" "?page=2"
  = Ok "https://h/x/y/z?page=2".
Proof. vm_compute. reflexivity. Qed.
Example urljoin_other_host :
  urllib.urljoin (ip := Toy.ipaddress) "https://h/x/y/z?q=1" "http://other/a b"
  = Ok "http://other/a b".
Proof. vm_compute. reflexivity. Qed.
Example urljoin_no_scheme :
  urllib.urljoin (ip := Toy.ipaddress) "example.com/jobs" "/x" = Ok "/x".
Proof. vm_compute. reflexivity. Qed.
Example urljoin_bad_bracket :
  urllib.urljoin (ip := Toy.ipaddress) "http://[abc/x" "/x" = Raised.
Proof. vm_compute. reflexivity. Qed.
Example urljoin_dots :
  urllib.urljoin (ip := Toy.ipaddress) "http://h/a/b/c/" "d//e/." = Ok "http://h/a/b/c/d/e/".
Proof. vm_compute. reflexivity. Qed.
Example urlparse_upper :
  urllib.urlparse (ip := Toy.ipaddress) "HTTP://Host:80/a;b?c#d" EmptyString
  = Ok {| urllib.pscheme := "http"; urllib.pnetloc := "Host:80"; urllib.ppath := "/a";
          urllib.pparams := "b"; urllib.pquery := "c"; urllib.pfragment := "d" |}.
Proof. vm_compute. reflexivity. Qed.

Example page1_markup :
  Toy.markup page1
  = "<div class='job'><a class='t' href='/job/1'>Dev</a></div><div class='job'><a class='t' href='/job/2'>Ops</a></div><a class='next' href='/jobs?p=2'>more</a>".
Proof. vm_compute. reflexivity. Qed.
Example spans_markup_text :
  spans_markup = "<span class='a'></span><span class='b'>X</span>".
Proof. vm_compute. reflexivity. Qed.
Example job1_markup : Toy.markup job1 = "<p class='d'> build things </p>".
Proof. vm_compute. reflexivity. Qed.

(** ** The sanitizer *)

Lemma allowed_fields (k : string) : allowed k = true <-> k ∈ JobData.fields.
Proof.
  unfold allowed, urllib.mem. rewrite existsb_exists. split.
  - intros (x & Hin & Heq). apply String.eqb_eq in Heq. subst x.
    by apply list_elem_of_In.
  - intros Hin. exists k. split; [by apply list_elem_of_In | apply String.eqb_refl].
Qed.

Lemma sanitize_lookup (d : job) (k : string) :
  _sanitize_job_fields d !! k =
  if allowed k then map_aliases d !! k else None.
Proof.
  unfold _sanitize_job_fields.
  destruct (allowed k) eqn:Hk.
  - destruct (map_aliases d !! k) as [v|] eqn:Hv.
    + apply map_lookup_filter_Some. by split.
    + apply map_lookup_filter_None. left. done.
  - apply map_lookup_filter_None. right. intros v _. simpl. congruence.
Qed.

Lemma map_aliases_other (d : job) (k : string) :
  k ≠ "posted_date" -> k ≠ "url" -> k ≠ "date_posted" ->
  map_aliases d !! k = d !! k.
Proof.
  intros H1 H2 H3. unfold map_aliases.
  repeat (case_match; simplify_map_eq; try done).
Qed.

(** C2, as stated, fails: a raw record with no recognized key is sanitized
    to the empty dictionary, in which the canonical field [title] is absent
    and not an empty string. *)
Lemma sanitize_unrecognized_record :
  let raw : job := {["colour" := "red"]} in
  "title" ∈ JobData.fields /\
  _sanitize_job_fields raw = ∅ /\
  _sanitize_job_fields raw !! "title" = None.
Proof.
  simpl. split; [|split].
  - apply list_elem_of_In. simpl. tauto.
  - vm_compute. reflexivity.
  - vm_compute. reflexivity.
Qed.

Lemma sanitize_plain_field (d : job) (k : string) :
  k ∈ JobData.fields -> k ≠ "posted_date" -> k ≠ "url" ->
  _sanitize_job_fields d !! k = d !! k.
Proof.
  intros Hk H1 H2. rewrite sanitize_lookup.
  apply allowed_fields in Hk as Hk'. rewrite Hk'.
  apply map_aliases_other; try done.
  intros ->. vm_compute in Hk'. done.
Qed.

Lemma sanitize_posted_date (d : job) :
  _sanitize_job_fields d !! "posted_date" =
    match d !! "date_posted" with
    | Some date_posted =>
        if negb (Py.truthy_opt (d !! "posted_date")) && Py.truthy date_posted
        then Some date_posted else d !! "posted_date"
    | None => d !! "posted_date"
    end.
Proof.
  rewrite sanitize_lookup. change (allowed "posted_date") with true. cbv iota.
  unfold map_aliases.
  repeat (case_match; simplify_map_eq; try done).
Qed.

Lemma sanitize_url (d : job) :
  _sanitize_job_fields d !! "url" =
    match d !! "apply_url" with
    | Some apply_url =>
        if Py.truthy apply_url && negb (Py.truthy_opt (d !! "url"))
        then Some apply_url else d !! "url"
    | None => d !! "url"
    end.
Proof.
  rewrite sanitize_lookup. change (allowed "url") with true. cbv iota.
  unfold map_aliases.
  repeat (case_match; simplify_map_eq; try done).
Qed.

(** C2, amended: sanitization is a total function whose result has no key
    outside the 23 canonical fields; a canonical field is present in the
    result exactly when the raw record has it, with the same value, except
    that [posted_date] is taken from a non-empty [date_posted] and [url]
    from a non-empty [apply_url] when the raw record has no non-empty value
    of its own. A field absent from the raw record stays absent; the 23
    fields are all there, the absent ones as empty strings, once the row
    is built by [JobData]. *)
Theorem sanitize_whitelist (d : job) :
  (forall k, is_Some (_sanitize_job_fields d !! k) -> k ∈ JobData.fields) /\
  (forall k, k ∈ JobData.fields -> k ≠ "posted_date" -> k ≠ "url" ->
     _sanitize_job_fields d !! k = d !! k) /\
  _sanitize_job_fields d !! "posted_date" =
    match d !! "date_posted" with
    | Some date_posted =>
        if negb (Py.truthy_opt (d !! "posted_date")) && Py.truthy date_posted
        then Some date_posted else d !! "posted_date"
    | None => d !! "posted_date"
    end /\
  _sanitize_job_fields d !! "url" =
    match d !! "apply_url" with
    | Some apply_url =>
        if Py.truthy apply_url && negb (Py.truthy_opt (d !! "url"))
        then Some apply_url else d !! "url"
    | None => d !! "url"
    end /\
  (forall k, k ∈ JobData.fields ->
     JobData.asdict (JobData.of_dict (_sanitize_job_fields d)) !! k
     = Some (default EmptyString (_sanitize_job_fields d !! k))).
Proof.
  split; [|split; [|split; [|split]]].
  - intros k [v Hv]. rewrite sanitize_lookup in Hv.
    destruct (allowed k) eqn:Hk; [|done]. by apply allowed_fields.
  - apply sanitize_plain_field.
  - apply sanitize_posted_date.
  - apply sanitize_url.
  - intros k Hk. generalize (_sanitize_job_fields d). intros c.
    unfold JobData.fields in Hk.
    repeat (apply elem_of_cons in Hk as [->|Hk]; [reflexivity|]).
    by apply elem_of_nil in Hk.
Qed.

(** ** Synthetic paging *)

(** Whatever the locator holds, the next locator is the current one with a
    [page] parameter written after it. *)
Lemma synthetic_paging_keeps_locator (current_url next_url : string) (config : Config) :
  handle_javascript_pagination current_url config = Some next_url ->
  exists shown,
    next_url
    = current_url
      +:+ (if Py.contains "?" current_url then "&page=" else "?page=") +:+ shown.
Proof.
  unfold handle_javascript_pagination.
  destruct (if Py.contains "page=" current_url then _ else _) as [current_page|];
    [|done].
  cbn [rbind]. destruct (Py.str (current_page + 1)) as [shown|]; [|done].
  cbn [rbind]. destruct (max_pages (pagination config) <? current_page + 1); [done|].
  intros [= <-]. exists shown. by destruct (Py.contains "?" current_url).
Qed.

(** A locator without [page=] is taken to be page 1. *)
Lemma synthetic_paging_from_start (current_url : string) (config : Config) :
  Py.contains "page=" current_url = false ->
  handle_javascript_pagination current_url config
  = if max_pages (pagination config) <? 2 then None
    else Some (current_url
               +:+ (if Py.contains "?" current_url then "&page=" else "?page=")
               +:+ "2").
Proof.
  intros Hnone. unfold handle_javascript_pagination. rewrite Hnone.
  cbn [rbind]. change (Py.str (1 + 1)) with (Ok (A := string) "2"). cbn [rbind].
  change (1 + 1) with 2.
  destruct (max_pages (pagination config) <? 2); [done|].
  by destruct (Py.contains "?" current_url).
Qed.

(** C4: the code appends a second [page] parameter instead of setting the
    one the locator has, and the next turn reads the stale first one again:
    from page 2 the paginator yields [?page=2&page=3] where the claim says
    [?page=3], and from there [?page=2&page=3&page=3]. *)
Theorem synthetic_paging_appends :
  handle_javascript_pagination "https://jobs.example.com/search?page=2" paged_config
    = Some "https://jobs.example.com/search?page=2&page=3" /\
  handle_javascript_pagination "https://jobs.example.com/search?page=2&page=3" paged_config
    = Some "https://jobs.example.com/search?page=2&page=3&page=3".
Proof. split; vm_compute; reflexivity. Qed.

(** ** The field extractor *)

Section extractor.
Context {bs : Soup}.

Lemma first_selector_skip (target : node) (pre rest : list string) :
  Forall (fun s => forall v, try_selector target s ≠ Ok (Some v)) pre ->
  first_selector target (pre ++ rest) = first_selector target rest.
Proof.
  induction 1 as [|s pre Hs _ IH]; [done|].
  simpl. destruct (try_selector target s) as [[v|]|]; [|done..].
  by destruct (Hs v).
Qed.

(** An alternative whose CSS part selects nothing is passed over: the engine
    found no element, it rejected the selector, or the attribute suffix is
    malformed. *)
Lemma finds_false (target : node) (sel : string) :
  finds target sel = false <->
  css_part sel = None
  \/ exists css, css_part sel = Some css
       /\ (select_one target css = Ok None \/ select_one target css = Raised).
Proof.
  unfold finds. destruct (css_part sel) as [css|]; [|split; [by left|done]].
  destruct (select_one target css) as [[elem|]|] eqn:E; split; try done.
  - intros [? | (css' & [= <-] & [? | ?])]; congruence.
  - intros _. right. exists css. split; [done|by left].
  - intros _. right. exists css. split; [done|by right].
Qed.

Lemma try_selector_passed (target : node) (sel : string) :
  finds target sel = false -> forall v, try_selector target sel ≠ Ok (Some v).
Proof.
  unfold finds, css_part, try_selector. intros Hf v.
  destruct (Py.contains "::text" sel).
  - destruct (select_one target _) as [[elem|]|]; done.
  - destruct (Py.contains "::attr(" sel).
    + destruct (Py.re_search_attr sel) as [name|]; [|done].
      destruct (select_one target _) as [[elem|]|]; done.
    + destruct (select_one target sel) as [[elem|]|]; done.
Qed.

(** C5, amended: the alternatives are tried left to right and the first one
    whose CSS part selects an element decides the result, which is the text
    of that element, or its attribute for an alternative with an attribute
    suffix (the empty string when the element has no such attribute), even
    when that value is empty; an alternative that selects nothing, that the
    CSS engine rejects, or whose attribute suffix is malformed is passed
    over, and when every alternative is passed over the result is the empty
    string. *)
Theorem first_matching_alternative_wins
  (soup : node) (selector : string) (element : option node) :
  let target := default soup element in
  let alternatives := map Py.strip (Py.split "," selector) in
  (forall pre sel post elem,
     alternatives = pre ++ sel :: post ->
     Forall (fun s => finds target s = false) pre ->
     (Py.contains "::text" sel = true ->
      select_one target (Py.remove "::text" sel) = Ok (Some elem) ->
      extract_text_from_selector soup selector element = get_text elem)
     /\ (Py.contains "::text" sel = false ->
         Py.contains "::attr(" sel = true ->
         forall attr_name, Py.re_search_attr sel = Some attr_name ->
         select_one target (Py.before "::attr(" sel) = Ok (Some elem) ->
         extract_text_from_selector soup selector element
         = default EmptyString (get_attr elem attr_name))
     /\ (Py.contains "::text" sel = false ->
         Py.contains "::attr(" sel = false ->
         select_one target sel = Ok (Some elem) ->
         extract_text_from_selector soup selector element = get_text elem))
  /\ (Forall (fun s => finds target s = false) alternatives ->
      extract_text_from_selector soup selector element = EmptyString)
  /\ (forall s, finds target s = false <->
        (Py.contains "::text" s = false /\ Py.contains "::attr(" s = true
         /\ Py.re_search_attr s = None)
        \/ exists css, css_part s = Some css
             /\ (select target css = Ok [] \/ select target css = Raised)).
Proof.
  intros target alternatives.
  assert (Hskip : forall pre rest,
            Forall (fun s => finds target s = false) pre ->
            first_selector target (pre ++ rest) = first_selector target rest).
  { intros pre rest Hpre. apply first_selector_skip.
    eapply Forall_impl; [exact Hpre|]. intros s Hs. by apply try_selector_passed. }
  split; [|split].
  - intros pre sel post elem Hsplit Hpre.
    unfold extract_text_from_selector. fold target. fold alternatives.
    rewrite Hsplit, (Hskip pre _ Hpre). simpl. unfold try_selector.
    split; [|split].
    + intros -> ->. done.
    + intros -> -> attr_name -> ->. done.
    + intros -> -> ->. done.
  - intros Hall. unfold extract_text_from_selector. fold target. fold alternatives.
    rewrite <- (app_nil_r alternatives). by rewrite (Hskip _ [] Hall).
  - intros s. rewrite finds_false. unfold css_part, select_one.
    destruct (Py.contains "::text" s).
    + split.
      * intros [?|(css & [= <-] & Hsel)]; [done|]. right. eexists. split; [done|].
        destruct (select target _) as [[|e l]|]; simpl in Hsel; [by left| |by right].
        by destruct Hsel.
      * intros [(? & _)|(css & [= <-] & Hsel)]; [done|]. right. eexists. split; [done|].
        destruct Hsel as [-> | ->]; [by left | by right].
    + destruct (Py.contains "::attr(" s).
      * destruct (Py.re_search_attr s) as [name|].
        -- split.
           ++ intros [?|(css & [= <-] & Hsel)]; [done|]. right. eexists. split; [done|].
              destruct (select target _) as [[|e l]|]; simpl in Hsel;
                [by left| |by right]. by destruct Hsel.
           ++ intros [(_ & _ & ?)|(css & [= <-] & Hsel)]; [done|]. right. eexists.
              split; [done|]. destruct Hsel as [-> | ->]; [by left | by right].
        -- split; [by left|]. intros _. by left.
      * split.
        -- intros [?|(css & [= <-] & Hsel)]; [done|]. right. eexists. split; [done|].
           destruct (select target _) as [[|e l]|]; simpl in Hsel; [by left| |by right].
           by destruct Hsel.
        -- intros [(_ & ? & _)|(css & [= <-] & Hsel)]; [done|]. right. eexists.
           split; [done|]. destruct Hsel as [-> | ->]; [by left | by right].
Qed.

End extractor.

(** C5, as stated, fails: the first alternative selects an element whose
    text is empty, the second one an element with text [X], and the result
    is the empty string of the first. *)
Lemma empty_match_ends_search :
  let doc := parse (Soup := spans_soup) spans_markup in
  try_selector (bs := spans_soup) doc ".a::text" = Ok (Some EmptyString) /\
  try_selector (bs := spans_soup) doc ".b::text" = Ok (Some "X") /\
  extract_text_from_selector (bs := spans_soup) doc ".a::text, .b::text" None
    = EmptyString.
Proof. repeat split; vm_compute; reflexivity. Qed.

(** The first alternative selects nothing and is passed over; the second
    one selects an element without text, and its empty text is the result,
    the third alternative not being tried. *)
Lemma first_matching_alternative_wins_witness :
  extract_text_from_selector (bs := spans_soup)
    (parse (Soup := spans_soup) spans_markup) ".missing::text, .a::text, .b::text" None
  = get_text (Soup := spans_soup) (Toy.Element "span" ["a"] [] EmptyString []).
Proof.
  destruct (first_matching_alternative_wins (bs := spans_soup)
              (parse (Soup := spans_soup) spans_markup)
              ".missing::text, .a::text, .b::text" None) as [Hfirst _].
  destruct (Hfirst [".missing::text"] ".a::text" [".b::text"]
              (Toy.Element "span" ["a"] [] EmptyString [])) as [Htext _].
  - vm_compute. reflexivity.
  - constructor; [|constructor]. vm_compute. reflexivity.
  - apply Htext.
    + vm_compute. reflexivity.
    + vm_compute. reflexivity.
Defined.

(** ** The crawl loop *)

Section crawl.
Context {ip : Ipaddress} {bs : Soup} {web : World}.

Lemma unique_jobs_spec (scanned : list job) (seen : gset string) :
  let r := unique_jobs scanned seen in
  NoDup (map apply_url_of r.1) /\
  (forall u, u ∈ map apply_url_of r.1 -> u ∉ seen) /\
  r.2 = list_to_set (map apply_url_of r.1) ∪ seen /\
  sublist r.1 scanned /\
  Forall (fun j => Py.truthy_opt (j !! "apply_url") = true) r.1 /\
  (forall j, j ∈ scanned -> Py.truthy_opt (j !! "apply_url") = true ->
     apply_url_of j ∈ r.2).
Proof.
  revert seen. induction scanned as [|j rest IH]; intros seen; simpl.
  - repeat split; [constructor | set_solver | set_solver | done | done | set_solver].
  - destruct (Py.truthy_opt (j !! "apply_url")) eqn:Ht; simpl.
    + case_bool_decide as Hseen; simpl.
      * specialize (IH ({[apply_url_of j]} ∪ seen)).
        destruct (unique_jobs rest ({[apply_url_of j]} ∪ seen)) as [u s'] eqn:E.
        simpl in *. destruct IH as (Hnd & Hfresh & Hs & Hsub & Hall & Hin).
        repeat split.
        -- constructor; [|done]. intros Hj. apply Hfresh in Hj. set_solver.
        -- intros x Hx. apply elem_of_cons in Hx as [->|Hx]; [done|].
           apply Hfresh in Hx. set_solver.
        -- rewrite Hs. set_solver.
        -- by apply sublist_skip.
        -- by constructor.
        -- intros j' Hj' Ht'. apply elem_of_cons in Hj' as [->|Hj'].
           ++ rewrite Hs. set_solver.
           ++ by apply Hin.
      * specialize (IH seen). destruct IH as (Hnd & Hfresh & Hs & Hsub & Hall & Hin).
        repeat split; try done; [by apply sublist_cons|].
        intros j' Hj' Ht'. apply elem_of_cons in Hj' as [->|Hj']; [|by apply Hin].
        rewrite Hs. set_solver.
    + specialize (IH seen). destruct IH as (Hnd & Hfresh & Hs & Hsub & Hall & Hin).
      repeat split; try done; [by apply sublist_cons|].
      intros j' Hj' Ht'. apply elem_of_cons in Hj' as [->|Hj']; [congruence|].
      by apply Hin.
Qed.

Lemma scrape_page_unique (config : Config) (flag : bool) (st : Crawl) :
  let p := scrape_page config flag st in
  unique_jobs (page_jobs p) (seen_urls st)
  = (unique_page_jobs p, seen_urls (page_after p)).
Proof.
  unfold scrape_page.
  destruct (get_page_content Listing _ (machine st)) as [html m].
  destruct (negb (Py.truthy_opt html)); [done|].
  destruct (scrape_job_listings _ config (mworld m)) as [scanned w].
  destruct (unique_jobs scanned (seen_urls st)) as [unique seen] eqn:E.
  by destruct flag; [destruct (detail_pass _ _ _)|].
Qed.

Lemma scrape_page_all_jobs (config : Config) (flag : bool) (st : Crawl) :
  let p := scrape_page config flag st in
  all_jobs (page_after p)
  = all_jobs st ++ map _sanitize_job_fields (merged_page_jobs p).
Proof.
  unfold scrape_page.
  destruct (get_page_content Listing _ (machine st)) as [html m].
  destruct (negb (Py.truthy_opt html)); [by rewrite app_nil_r|].
  destruct (scrape_job_listings _ config (mworld m)) as [scanned w].
  destruct (unique_jobs scanned (seen_urls st)) as [unique seen].
  by destruct flag; [destruct (detail_pass _ _ _)|].
Qed.

Lemma scrape_loop_all_jobs (fuel : nat) (config : Config) (limit : Z)
  (flag : bool) (st : Crawl) :
  all_jobs (scrape_loop fuel config limit flag st)
  = all_jobs st
    ++ concat (map (fun p => map _sanitize_job_fields (merged_page_jobs p))
                 (turns fuel config limit flag st)).
Proof.
  revert st. induction fuel as [|fuel IH]; intros st; simpl.
  - by rewrite app_nil_r.
  - destruct (loop_test limit st); [|by rewrite app_nil_r].
    pose proof (scrape_page_all_jobs config flag st) as Hp. simpl in Hp.
    destruct (page_flow (scrape_page config flag st)); simpl.
    + rewrite IH, Hp. by rewrite <- app_assoc.
    + rewrite Hp. by rewrite app_nil_r.
Qed.

Lemma turns_kept (fuel : nat) (config : Config) (limit : Z) (flag : bool)
  (st : Crawl) :
  let ps := turns fuel config limit flag st in
  let kept := concat (map unique_page_jobs ps) in
  NoDup (map apply_url_of kept) /\
  (forall u, u ∈ map apply_url_of kept -> u ∉ seen_urls st) /\
  sublist kept (concat (map page_jobs ps)) /\
  Forall (fun j => Py.truthy_opt (j !! "apply_url") = true) kept.
Proof.
  revert st. induction fuel as [|fuel IH]; intros st; simpl.
  - repeat split; [constructor | set_solver | done | done].
  - destruct (loop_test limit st); simpl;
      [|repeat split; [constructor | set_solver | done | done]].
    pose proof (scrape_page_unique config flag st) as Hu. simpl in Hu.
    pose proof (unique_jobs_spec
                  (page_jobs (scrape_page config flag st)) (seen_urls st)) as Hs.
    simpl in Hs. rewrite Hu in Hs. simpl in Hs.
    destruct Hs as (Hnd & Hfresh & Hseen & Hsub & Hall & _).
    set (p := scrape_page config flag st) in *.
    assert (Hrest :
      let kept := concat (map unique_page_jobs
                    match page_flow p with
                    | Next => turns fuel config limit flag (page_after p)
                    | Break => []
                    end) in
      NoDup (map apply_url_of kept) /\
      (forall u, u ∈ map apply_url_of kept -> u ∉ seen_urls (page_after p)) /\
      sublist kept (concat (map page_jobs
                    match page_flow p with
                    | Next => turns fuel config limit flag (page_after p)
                    | Break => []
                    end)) /\
      Forall (fun j => Py.truthy_opt (j !! "apply_url") = true) kept).
    { destruct (page_flow p); [apply IH|].
      simpl. repeat split; [constructor | set_solver | done | done]. }
    simpl in Hrest. destruct Hrest as (Hnd' & Hfresh' & Hsub' & Hall').
    rewrite map_app. repeat split.
    + apply NoDup_app. split; [done|]. split; [|done].
      intros u Hu1 Hu2. apply Hfresh' in Hu2. rewrite Hseen in Hu2. set_solver.
    + intros u Hin. apply elem_of_app in Hin as [Hin|Hin]; [by apply Hfresh|].
      apply Hfresh' in Hin. rewrite Hseen in Hin. set_solver.
    + by apply sublist_app.
    + by apply Forall_app.
Qed.

(** What the listing scanner lets through. *)

Lemma stamp_url (config : Config) (now : string) (job_data : job) :
  Py.truthy_opt (stamp config now job_data !! "apply_url") = true ->
  stamp config now job_data !! "url" = stamp config now job_data !! "apply_url".
Proof.
  unfold stamp.
  destruct (<["scraped_at":=now]> (<["source_site":=site_name config]> job_data)
              !! "apply_url") as [a|] eqn:E.
  - destruct (Py.truthy a) eqn:Ha.
    + intros _. by simplify_map_eq.
    + rewrite E. simpl. congruence.
  - rewrite E. done.
Qed.

Lemma scan_containers_listed (config : Config) (soup : node)
  (containers : list node) (seen : gset string) (w : world) :
  Forall listed (scan_containers config soup containers seen w).1.
Proof.
  revert seen w. induction containers as [|c rest IH]; intros seen w; simpl; [done|].
  destruct (absolute_apply_url config _) as [jd|]; [|done].
  destruct (utcnow w) as [now w'].
  destruct (valid (stamp config now jd)) eqn:Hv; [|apply IH].
  case_bool_decide; [apply IH|].
  specialize (IH ({[apply_url_of (stamp config now jd)]} ∪ seen) w').
  destruct (scan_containers config soup rest _ w') as [jobs w'']. simpl in *.
  constructor; [|done]. split; [done|].
  apply stamp_url. unfold valid in Hv. by apply andb_true_iff in Hv as [_ ?].
Qed.

(** The scanner's own set [seen_urls]: one page never yields two records
    with the same [apply_url]. *)
Lemma scan_containers_nodup (config : Config) (soup : node)
  (containers : list node) (seen : gset string) (w : world) :
  let jobs := (scan_containers config soup containers seen w).1 in
  NoDup (map apply_url_of jobs)
  /\ (forall u, u ∈ map apply_url_of jobs -> u ∉ seen).
Proof.
  revert seen w. induction containers as [|c rest IH]; intros seen w; simpl.
  - split; [constructor | set_solver].
  - destruct (absolute_apply_url config _) as [jd|];
      [|split; [constructor | set_solver]].
    destruct (utcnow w) as [now w'].
    destruct (valid (stamp config now jd)); [|apply IH].
    case_bool_decide as Hseen; [apply IH|].
    specialize (IH ({[apply_url_of (stamp config now jd)]} ∪ seen) w').
    destruct (scan_containers config soup rest _ w') as [jobs w'']. simpl in *.
    destruct IH as [Hnd Hfresh]. split.
    + constructor; [|done]. intros Hin. apply Hfresh in Hin. set_solver.
    + intros u Hu. apply elem_of_cons in Hu as [->|Hu]; [done|].
      apply Hfresh in Hu. set_solver.
Qed.

Lemma scrape_job_listings_nodup (html : string) (config : Config) (w : world) :
  NoDup (map apply_url_of (scrape_job_listings html config w).1).
Proof.
  unfold scrape_job_listings. destruct (select _ _); [|constructor].
  apply scan_containers_nodup.
Qed.

Lemma scrape_job_listings_listed (html : string) (config : Config) (w : world) :
  Forall listed (scrape_job_listings html config w).1.
Proof.
  unfold scrape_job_listings. destruct (select _ _); [|done].
  apply scan_containers_listed.
Qed.

Lemma scrape_page_listed (config : Config) (flag : bool) (st : Crawl) :
  Forall listed (page_jobs (scrape_page config flag st)).
Proof.
  unfold scrape_page.
  destruct (get_page_content Listing _ (machine st)) as [html m].
  destruct (negb (Py.truthy_opt html)); [done|].
  pose proof (scrape_job_listings_listed (default "" html) config (mworld m)) as Hl.
  destruct (scrape_job_listings _ config (mworld m)) as [scanned w].
  destruct (unique_jobs scanned (seen_urls st)) as [unique seen].
  by destruct flag; [destruct (detail_pass _ _ _)|].
Qed.

(** The effects of the detail fetcher and of the sink. *)

Lemma saved_app (l1 l2 : list Event) : saved (l1 ++ l2) = saved l1 ++ saved l2.
Proof. apply omap_app. Qed.

Lemma listing_fetches_app (l1 l2 : list Event) :
  listing_fetches (l1 ++ l2) = listing_fetches l1 ++ listing_fetches l2.
Proof. apply omap_app. Qed.

Lemma extract_details_dom (soup : node) (sels : list (string * string)) (d : job)
  (k : string) :
  is_Some (extract_details soup sels d !! k) ->
  is_Some (d !! k) \/ k ∈ map fst sels.
Proof.
  revert d. induction sels as [|[f sel] rest IH]; intros d; simpl; [by left|].
  intros Hk. apply IH in Hk as [Hk|Hk]; [|right; by apply elem_of_cons; right].
  destruct (decide (f = k)) as [->|Hne].
  - right. apply elem_of_cons. by left.
  - left. by rewrite lookup_insert_ne in Hk.
Qed.

Lemma scrape_job_details_spec (job_url : string) (config : Config) (m : Machine) :
  let r := scrape_job_details job_url config m in
  detail_fields config r.1 /\
  listing_fetches (mlog r.2) = listing_fetches (mlog m) /\
  saved (mlog r.2) = saved (mlog m).
Proof.
  assert (Hempty : detail_fields config ∅).
  { intros k [v Hv]. by rewrite lookup_empty in Hv. }
  unfold scrape_job_details.
  destruct (absolute_job_url config job_url) as [u|]; [|done].
  unfold get_page_content. destruct (http_get u (mworld m)) as [html w].
  assert (Hlog : listing_fetches (mlog m ++ [Fetch Detail u]) = listing_fetches (mlog m)
                 /\ saved (mlog m ++ [Fetch Detail u]) = saved (mlog m)).
  { rewrite listing_fetches_app, saved_app. simpl. by rewrite !app_nil_r. }
  destruct html as [h|]; [|done].
  destruct (Py.truthy h); [|done].
  simpl. split; [|done].
  intros k Hk. apply extract_details_dom in Hk as [[v Hv]|Hk]; [|done].
  by rewrite lookup_empty in Hv.
Qed.

Lemma detail_pass_spec (config : Config) (jobs : list job) (m : Machine) :
  let r := detail_pass config jobs m in
  Forall2 (merged_from config true) r.1 jobs /\
  listing_fetches (mlog r.2) = listing_fetches (mlog m) /\
  (Forall (fun j => Py.truthy_opt (j !! "apply_url") = true) jobs ->
   saved (mlog r.2) = saved (mlog m) ++ map row_of r.1).
Proof.
  revert m. induction jobs as [|j rest IH]; intros m; simpl.
  - by rewrite app_nil_r.
  - destruct (Py.truthy_opt (j !! "apply_url")) eqn:Ht.
    + pose proof (scrape_job_details_spec (apply_url_of j) config m) as Hd.
      destruct (scrape_job_details (apply_url_of j) config m) as [d m1].
      simpl in Hd. destruct Hd as (Hdom & Hl1 & Hs1).
      set (m2 := save_job_to_database (d ∪ j) m1).
      specialize (IH m2). destruct (detail_pass config rest m2) as [rest' m3].
      simpl in *. destruct IH as (Hf & Hl & Hs).
      split; [|split].
      * constructor; [|done]. exists d. done.
      * rewrite Hl. unfold m2, save_job_to_database. simpl.
        rewrite listing_fetches_app. simpl. by rewrite app_nil_r.
      * intros Hall. apply Forall_cons in Hall as [_ Hall].
        rewrite (Hs Hall). unfold m2, save_job_to_database. simpl.
        rewrite saved_app, Hs1. simpl. by rewrite <- app_assoc.
    + specialize (IH m). destruct (detail_pass config rest m) as [rest' m3].
      simpl in *. destruct IH as (Hf & Hl & Hs).
      split; [|split]; [|done|].
      * constructor; [|done]. exists ∅. split; [|split; [done|]].
        -- intros k [v Hv]. by rewrite lookup_empty in Hv.
        -- by rewrite (left_id_L ∅ (∪)).
      * intros Hall. apply Forall_cons in Hall as [Hj _]. congruence.
Qed.

Lemma merged_from_refl (config : Config) (jobs : list job) :
  Forall2 (merged_from config false) jobs jobs.
Proof.
  induction jobs as [|j rest IH]; constructor; [|done].
  exists ∅. split; [|split; [done|]].
  - intros k [v Hv]. by rewrite lookup_empty in Hv.
  - by rewrite (left_id_L ∅ (∪)).
Qed.

Lemma scrape_page_effects (config : Config) (flag : bool) (st : Crawl) :
  let p := scrape_page config flag st in
  Forall2 (merged_from config flag) (merged_page_jobs p) (unique_page_jobs p) /\
  listing_fetches (mlog (machine (page_after p)))
  = listing_fetches (mlog (machine st)) ++ [default EmptyString (current_url st)] /\
  saved (mlog (machine (page_after p)))
  = saved (mlog (machine st))
    ++ (if flag then map row_of (merged_page_jobs p) else []).
Proof.
  unfold scrape_page, get_page_content.
  destruct (http_get _ (mworld (machine st))) as [html w0].
  set (url := default EmptyString (current_url st)).
  assert (Hlog : listing_fetches (mlog (machine st) ++ [Fetch Listing url])
                 = listing_fetches (mlog (machine st)) ++ [url]
                 /\ saved (mlog (machine st) ++ [Fetch Listing url])
                    = saved (mlog (machine st))).
  { rewrite listing_fetches_app, saved_app. simpl. by rewrite app_nil_r. }
  destruct Hlog as [Hl Hs].
  destruct (negb (Py.truthy_opt html)); simpl.
  - split; [done|]. split; [done|]. rewrite Hs. destruct flag; by rewrite app_nil_r.
  - destruct (scrape_job_listings _ config w0) as [scanned w].
    pose proof (unique_jobs_spec scanned (seen_urls st)) as Hu.
    destruct (unique_jobs scanned (seen_urls st)) as [unique seen].
    simpl in Hu. destruct Hu as (_ & _ & _ & _ & Hall & _).
    destruct flag.
    + pose proof (detail_pass_spec config unique
                    {| mworld := w; mlog := mlog (machine st) ++ [Fetch Listing url] |})
        as Hd.
      destruct (detail_pass config unique _) as [merged m]. simpl in *.
      destruct Hd as (Hf & Hl' & Hs'). split; [done|].
      rewrite Hl', (Hs' Hall). by rewrite Hl, Hs.
    + simpl. split; [apply merged_from_refl|]. rewrite Hl, Hs. by rewrite app_nil_r.
Qed.

Lemma turns_length (fuel : nat) (config : Config) (limit : Z) (flag : bool)
  (st : Crawl) :
  (length (turns fuel config limit flag st) <= fuel)%nat.
Proof.
  revert st. induction fuel as [|fuel IH]; intros st; simpl; [done|].
  destruct (loop_test limit st); simpl; [|lia].
  destruct (page_flow _); simpl; [|lia].
  specialize (IH (page_after (scrape_page config flag st))). lia.
Qed.

Lemma scrape_loop_effects (fuel : nat) (config : Config) (limit : Z)
  (flag : bool) (st : Crawl) :
  let ps := turns fuel config limit flag st in
  let final := scrape_loop fuel config limit flag st in
  Forall2 (merged_from config flag)
    (concat (map merged_page_jobs ps)) (concat (map unique_page_jobs ps)) /\
  length (listing_fetches (mlog (machine final)))
  = (length (listing_fetches (mlog (machine st))) + length ps)%nat /\
  saved (mlog (machine final))
  = saved (mlog (machine st))
    ++ (if flag then map row_of (concat (map merged_page_jobs ps)) else []).
Proof.
  revert st. induction fuel as [|fuel IH]; intros st; simpl.
  - split; [done|]. split; [lia|]. destruct flag; by rewrite app_nil_r.
  - destruct (loop_test limit st); simpl;
      [|split; [done|]; split; [lia|]; destruct flag; by rewrite app_nil_r].
    pose proof (scrape_page_effects config flag st) as Hp. simpl in Hp.
    destruct Hp as (Hf & Hl & Hs).
    set (p := scrape_page config flag st) in *.
    destruct (page_flow p); simpl.
    + specialize (IH (page_after p)). simpl in IH.
      destruct IH as (Hf' & Hl' & Hs').
      split; [by apply Forall2_app|]. split.
      * rewrite Hl', Hl, length_app. simpl. lia.
      * rewrite Hs', Hs. destruct flag; [|by rewrite !app_nil_r].
        by rewrite map_app, app_assoc.
    + rewrite !app_nil_r. split; [done|]. split; [|done].
      rewrite Hl, length_app. simpl. lia.
Qed.

Lemma turns_scanned (fuel : nat) (config : Config) (limit : Z) (flag : bool)
  (st : Crawl) :
  let ps := turns fuel config limit flag st in
  Forall listed (concat (map page_jobs ps)) /\
  (forall j, j ∈ concat (map page_jobs ps) ->
     apply_url_of j ∈ map apply_url_of (concat (map unique_page_jobs ps))
     \/ apply_url_of j ∈ seen_urls st).
Proof.
  revert st. induction fuel as [|fuel IH]; intros st; simpl.
  - split; [done|]. intros j Hj. by apply elem_of_nil in Hj.
  - destruct (loop_test limit st); simpl;
      [|split; [done|]; intros j Hj; by apply elem_of_nil in Hj].
    pose proof (scrape_page_listed config flag st) as Hlisted.
    pose proof (scrape_page_unique config flag st) as Hu. simpl in Hu.
    pose proof (unique_jobs_spec
                  (page_jobs (scrape_page config flag st)) (seen_urls st)) as Hs.
    simpl in Hs. rewrite Hu in Hs. simpl in Hs.
    destruct Hs as (_ & _ & Hseen & _ & _ & Hin).
    set (p := scrape_page config flag st) in *.
    assert (Hrest :
      let rest := match page_flow p with
                  | Next => turns fuel config limit flag (page_after p)
                  | Break => []
                  end in
      Forall listed (concat (map page_jobs rest)) /\
      (forall j, j ∈ concat (map page_jobs rest) ->
         apply_url_of j ∈ map apply_url_of (concat (map unique_page_jobs rest))
         \/ apply_url_of j ∈ seen_urls (page_after p))).
    { destruct (page_flow p); [apply IH|].
      simpl. split; [done|]. intros j Hj. by apply elem_of_nil in Hj. }
    simpl in Hrest. destruct Hrest as (Hlisted' & Hin').
    split; [by apply Forall_app|].
    intros j Hj. rewrite map_app, elem_of_app.
    apply elem_of_app in Hj as [Hj|Hj].
    + assert (Ht : Py.truthy_opt (j !! "apply_url") = true).
      { rewrite Forall_forall in Hlisted. destruct (Hlisted j Hj) as [Hv _].
        unfold valid in Hv. by apply andb_true_iff in Hv as [_ ?]. }
      specialize (Hin j Hj Ht). rewrite Hseen in Hin.
      apply elem_of_union in Hin as [Hin|Hin]; [|by right].
      left. left. by apply elem_of_list_to_set in Hin.
    + destruct (Hin' j Hj) as [Hk|Hk]; [by left; right|].
      rewrite Hseen in Hk. apply elem_of_union in Hk as [Hk|Hk]; [|by right].
      left. left. by apply elem_of_list_to_set in Hk.
Qed.

(** The returned collection and the rows of the sink, in terms of the
    merged records of the turns. *)
Lemma crawl_records (config : Config) (limit : Z) (flag : bool) (w : world) :
  let ps := turns (Z.to_nat limit) config limit flag (start config w) in
  let merged := concat (map merged_page_jobs ps) in
  Forall2 (merged_from config flag) merged (concat (map unique_page_jobs ps)) /\
  scrape_site config limit flag w = map _sanitize_job_fields merged /\
  saved (mlog (machine (crawl config limit flag w)))
  = if flag then map row_of merged else [].
Proof.
  intros ps merged.
  pose proof (scrape_loop_effects (Z.to_nat limit) config limit flag (start config w))
    as He.
  simpl in He. fold ps in He. fold merged in He.
  destruct He as (Hf & _ & Hsaved).
  repeat split; try done.
  unfold scrape_site, crawl. rewrite scrape_loop_all_jobs. simpl.
  fold ps. unfold merged. clear. induction ps as [|p ps IH]; [done|].
  simpl. by rewrite map_app, IH.
Qed.


(** The page budget. *)

Lemma scrape_page_flow (config : Config) (flag : bool) (st : Crawl) :
  let p := scrape_page config flag st in
  match page_flow p with
  | Next => pages_scraped (page_after p) = pages_scraped st + 1
  | Break =>
      all_jobs (page_after p) = all_jobs st
      /\ pages_scraped (page_after p) = pages_scraped st
  end.
Proof.
  unfold scrape_page.
  destruct (get_page_content Listing _ (machine st)) as [html m].
  destruct (negb (Py.truthy_opt html)); [done|].
  destruct (scrape_job_listings _ config (mworld m)) as [scanned w].
  destruct (unique_jobs scanned (seen_urls st)) as [unique seen].
  by destruct flag; [destruct (detail_pass _ _ _)|].
Qed.

Lemma scrape_loop_fuel (config : Config) (limit : Z) (flag : bool)
  (fuel extra : nat) (st : Crawl) :
  (Z.to_nat (limit - pages_scraped st) <= fuel)%nat ->
  scrape_loop (fuel + extra) config limit flag st
  = scrape_loop fuel config limit flag st.
Proof.
  revert st. induction fuel as [|fuel IH]; intros st Hfuel.
  - assert (Htest : loop_test limit st = false).
    { unfold loop_test. apply andb_false_iff. right. apply Z.ltb_ge. lia. }
    destruct extra; simpl; [done|]. by rewrite Htest.
  - simpl. destruct (loop_test limit st); [|done].
    pose proof (scrape_page_flow config flag st) as Hp. simpl in Hp.
    destruct (page_flow (scrape_page config flag st)); [|done].
    apply IH. rewrite Hp. lia.
Qed.

Lemma scrape_loop_pages (fuel : nat) (config : Config) (limit : Z) (flag : bool)
  (st : Crawl) :
  pages_scraped st <= pages_scraped (scrape_loop fuel config limit flag st)
  <= Z.max (pages_scraped st) limit.
Proof.
  revert st. induction fuel as [|fuel IH]; intros st; simpl; [lia|].
  destruct (loop_test limit st) eqn:Ht; [|lia].
  unfold loop_test in Ht. apply andb_true_iff in Ht as [_ Ht]. apply Z.ltb_lt in Ht.
  pose proof (scrape_page_flow config flag st) as Hp. simpl in Hp.
  destruct (page_flow (scrape_page config flag st)).
  - specialize (IH (page_after (scrape_page config flag st))). lia.
  - lia.
Qed.

Lemma scrape_loop_exit (fuel : nat) (config : Config) (limit : Z) (flag : bool)
  (st : Crawl) :
  (Z.to_nat (limit - pages_scraped st) <= fuel)%nat ->
  loop_test limit (scrape_loop fuel config limit flag st) = false
  \/ exists p, last (turns fuel config limit flag st) = Some p /\ page_flow p = Break.
Proof.
  revert st. induction fuel as [|fuel IH]; intros st Hfuel; simpl.
  - left. unfold loop_test. apply andb_false_iff. right. apply Z.ltb_ge. lia.
  - destruct (loop_test limit st) eqn:Ht; [|by left].
    pose proof (scrape_page_flow config flag st) as Hp. simpl in Hp.
    destruct (page_flow (scrape_page config flag st)) eqn:Hflow.
    + destruct (IH (page_after (scrape_page config flag st))) as [Hl|(p & Hlast & Hb)];
        [rewrite Hp; lia | by left |].
      right. exists p. split; [|done].
      destruct (turns fuel config limit flag _) as [|q qs]; [done|].
      by rewrite last_cons, Hlast.
    + right. by exists (scrape_page config flag st).
Qed.

(** C3, amended: an invocation of [scrape_site] whose argument [max_pages]
    is [limit] requests at most [limit] listing pages, whatever the
    [max_pages] of the profile, and it terminates: [limit] turns of the loop
    are all it takes, more fuel changes nothing. The count of pages done
    ends between 0 and [limit]. When the loop ends, its test is false (the
    paginator has no locator, or [limit] pages are done) or the last
    listing fetch returned no content; the paginator can still hold a
    locator. *)
Theorem scrape_site_page_budget (config : Config) (limit : Z) (flag : bool)
  (w : world) :
  let final := crawl config limit flag w in
  (length (listing_fetches (mlog (machine final))) <= Z.to_nat limit)%nat /\
  (forall extra : nat,
     scrape_loop (Z.to_nat limit + extra) config limit flag (start config w)
     = final) /\
  0 <= pages_scraped final <= Z.max 0 limit /\
  (Py.truthy_opt (current_url final) = false
   \/ limit <= pages_scraped final
   \/ exists p, last (turns (Z.to_nat limit) config limit flag (start config w)) = Some p
                /\ page_flow p = Break).
Proof.
  intros final. split; [|split; [|split]].
  - pose proof (scrape_loop_effects (Z.to_nat limit) config limit flag (start config w))
      as (_ & Hl & _).
    unfold final, crawl. rewrite Hl. simpl.
    apply turns_length.
  - intros extra. apply scrape_loop_fuel. simpl. lia.
  - apply (scrape_loop_pages (Z.to_nat limit) config limit flag (start config w)).
  - destruct (scrape_loop_exit (Z.to_nat limit) config limit flag (start config w))
      as [Hl|Hb]; [simpl; lia | | by right; right].
    fold (crawl config limit flag w) in Hl. fold final in Hl.
    unfold loop_test in Hl. apply andb_false_iff in Hl as [Hl|Hl]; [by left|].
    right. left. by apply Z.ltb_ge.
Qed.

(** Failure of a listing fetch. *)

Lemma run_pages_loop (k : nat) (config : Config) (limit : Z) (flag : bool)
  (st0 st : Crawl) (n : nat) :
  run_pages k config limit flag st0 = Some st ->
  scrape_loop (k + n) config limit flag st0 = scrape_loop n config limit flag st
  /\ pages_scraped st = pages_scraped st0 + Z.of_nat k.
Proof.
  revert st0. induction k as [|k IH]; intros st0; simpl.
  - intros [= ->]. split; [done|lia].
  - destruct (loop_test limit st0); [|done].
    pose proof (scrape_page_flow config flag st0) as Hp. simpl in Hp.
    destruct (page_flow (scrape_page config flag st0)); [|done].
    intros Hrun. destruct (IH _ Hrun) as [Hloop Hpages].
    split; [done|]. rewrite Hpages, Hp. lia.
Qed.

Lemma scrape_page_break (config : Config) (flag : bool) (st : Crawl) :
  Py.truthy_opt
    (http_get (default EmptyString (current_url st)) (mworld (machine st))).1 = false ->
  page_flow (scrape_page config flag st) = Break
  /\ mlog (machine (page_after (scrape_page config flag st)))
     = mlog (machine st) ++ [Fetch Listing (default EmptyString (current_url st))].
Proof.
  unfold scrape_page, get_page_content.
  destruct (http_get _ (mworld (machine st))) as [html w]. simpl.
  by intros ->.
Qed.

(** C9: when [k] listing pages have been processed, the loop goes on, and
    the fetcher returns no content ([None] or the empty string) for the next
    listing page, the crawl stops there (the failed request is the last
    effect of the run) and [scrape_site] returns the collection as it stands
    after those [k] pages, which is the sanitized records of the [k] turns. *)
Theorem listing_failure_keeps_records (config : Config) (limit : Z) (flag : bool)
  (w : world) (k : nat) (st : Crawl) :
  run_pages k config limit flag (start config w) = Some st ->
  loop_test limit st = true ->
  Py.truthy_opt
    (http_get (default EmptyString (current_url st)) (mworld (machine st))).1 = false ->
  scrape_site config limit flag w = all_jobs st
  /\ all_jobs st
     = map _sanitize_job_fields
         (concat (map merged_page_jobs (turns k config limit flag (start config w))))
  /\ pages_scraped st = Z.of_nat k
  /\ mlog (machine (crawl config limit flag w))
     = mlog (machine st) ++ [Fetch Listing (default EmptyString (current_url st))].
Proof.
  intros Hrun Htest Hfail.
  assert (Hlt : pages_scraped st < limit).
  { unfold loop_test in Htest. apply andb_true_iff in Htest as [_ Ht].
    by apply Z.ltb_lt in Ht. }
  destruct (run_pages_loop k config limit flag _ st 0 Hrun) as [Hk0 Hk].
  simpl in Hk, Hk0. rewrite Nat.add_0_r in Hk0.
  assert (Hfuel : Z.to_nat limit = (k + S (Z.to_nat limit - S k))%nat) by lia.
  assert (Hfinal : crawl config limit flag w
                   = page_after (scrape_page config flag st)).
  { unfold crawl. rewrite Hfuel.
    destruct (run_pages_loop k config limit flag _ st (S (Z.to_nat limit - S k)) Hrun)
      as [-> _].
    simpl. rewrite Htest.
    by destruct (scrape_page_break config flag st Hfail) as [-> _]. }
  destruct (scrape_page_break config flag st Hfail) as [Hbreak Hlog].
  pose proof (scrape_page_flow config flag st) as Hp. simpl in Hp.
  rewrite Hbreak in Hp. destruct Hp as [Hall _].
  split; [|split; [|split]].
  - unfold scrape_site. by rewrite Hfinal.
  - rewrite <- Hk0 at 1. rewrite scrape_loop_all_jobs. simpl.
    generalize (turns k config limit flag (start config w)). clear.
    intros ps. induction ps as [|p ps IH]; [done|].
    simpl. by rewrite map_app, IH.
  - done.
  - by rewrite Hfinal.
Qed.

End crawl.

(** C3, as stated, fails: the profile sets [max_pages] to 1, the invocation
    asks for 3 pages, three listing pages are requested and the paginator
    still holds a locator when the loop ends. *)
Lemma profile_max_pages_not_enforced :
  max_pages (pagination acme_config) = 1 /\
  listing_fetches (mlog (machine (acme_crawl 3 false)))
  = ["https://acme.example/jobs"; "https://acme.example/jobs?p=2";
     "https://acme.example/jobs?p=3"] /\
  current_url (acme_crawl 3 false) = Some "https://acme.example/jobs?p=4".
Proof. repeat split; vm_compute; reflexivity. Qed.

(** The second listing page of the site is down: the two jobs of the first
    page are returned. *)
Lemma listing_failure_keeps_records_witness :
  map (fun j : job => j !! "title")
    (scrape_site (ip := Toy.ipaddress) (bs := acme_soup) (web := acme_web_down)
       acme_config 5 false tt)
  = [Some "Dev"; Some "Ops"].
Proof.
  pose proof (listing_failure_keeps_records
                (ip := Toy.ipaddress) (bs := acme_soup) (web := acme_web_down)
                acme_config 5 false tt 1
                (page_after (scrape_page (ip := Toy.ipaddress) (bs := acme_soup)
                               (web := acme_web_down) acme_config false
                               (start (web := acme_web_down) acme_config tt))))
    as Hkeep.
  destruct Hkeep as [-> _].
  - vm_compute. reflexivity.
  - vm_compute. reflexivity.
  - vm_compute. reflexivity.
  - vm_compute. reflexivity.
Defined.

(** ** What a crawl emits *)

Section emitted.
Context {ip : Ipaddress} {bs : Soup} {web : World}.

Lemma merged_keeps (config : Config) (flag : bool) (merged j : job) (k : string) :
  merged_from config flag merged j ->
  flag = false \/ k ∉ map fst (job_detail_selectors config) ->
  merged !! k = j !! k.
Proof.
  intros (d & Hdom & Hoff & ->) Hk.
  assert (Hd : d !! k = None).
  { destruct Hk as [Hk|Hk].
    - rewrite (Hoff Hk). apply lookup_empty.
    - destruct (d !! k) eqn:E; [|done]. destruct Hk. apply Hdom. by rewrite E. }
  by rewrite lookup_union_r.
Qed.

Lemma emitted_record (config : Config) (flag : bool) (merged j : job) :
  listed j ->
  merged_from config flag merged j ->
  flag = false
  \/ (("title" ∉ map fst (job_detail_selectors config))
      /\ (("url" ∉ map fst (job_detail_selectors config))
          \/ ("apply_url" ∉ map fst (job_detail_selectors config)))) ->
  Py.truthy_opt (_sanitize_job_fields merged !! "title") = true
  /\ Py.truthy_opt (_sanitize_job_fields merged !! "url") = true.
Proof.
  intros [Hv Hurl] Hm Hk.
  unfold valid in Hv. apply andb_true_iff in Hv as [Ht Ha].
  split.
  - rewrite sanitize_plain_field; [| apply list_elem_of_In; simpl; tauto | done | done].
    rewrite (merged_keeps config flag merged j "title" Hm); [done|].
    destruct Hk as [? | [? _]]; [by left | by right].
  - rewrite sanitize_url.
    assert (Hone : merged !! "url" = j !! "url"
                   \/ merged !! "apply_url" = j !! "apply_url").
    { destruct Hk as [Hoff | [_ [Hu | Hap]]].
      - left. apply (merged_keeps config flag); [done | by left].
      - left. apply (merged_keeps config flag); [done | by right].
      - right. apply (merged_keeps config flag); [done | by right]. }
    destruct Hone as [Hu | Hap].
    + rewrite Hu, Hurl.
      destruct (merged !! "apply_url") as [a|]; [|done].
      rewrite Ha. by rewrite andb_false_r.
    + rewrite Hap. destruct (j !! "apply_url") as [a|]; [|done].
      simpl in Ha. rewrite Ha. simpl.
      by destruct (Py.truthy_opt (merged !! "url")) eqn:E.
Qed.

Lemma emitted_records (config : Config) (flag : bool) (merged kept : list job) :
  Forall2 (merged_from config flag) merged kept ->
  Forall listed kept ->
  flag = false
  \/ (("title" ∉ map fst (job_detail_selectors config))
      /\ (("url" ∉ map fst (job_detail_selectors config))
          \/ ("apply_url" ∉ map fst (job_detail_selectors config)))) ->
  Forall (fun m =>
            Py.truthy_opt (_sanitize_job_fields m !! "title") = true
            /\ Py.truthy_opt (_sanitize_job_fields m !! "url") = true) merged.
Proof.
  intros Hf Hkept Hk. induction Hf as [|m j ms js Hm _ IH]; [done|].
  apply Forall_cons in Hkept as [Hj Hjs].
  constructor; [|by apply IH].
  by apply (emitted_record config flag m j).
Qed.

(** C6, amended: every record of the returned collection and every row
    handed to [save_job_to_database] has a non-empty title and a non-empty
    [url] when detail scraping is off, or when the detail selectors of the
    profile do not name [title] and do not name both [url] and [apply_url].
    A detail selector named [title] overwrites the listing title with what
    the detail page yields, which can be empty; one named [url] or
    [apply_url] does the same to the link, and the sanitizer restores [url]
    from the other of the two as long as the detail selectors left it
    alone. *)
Theorem emitted_identity_preserved (config : Config) (limit : Z) (flag : bool)
  (w : world) :
  flag = false
  \/ (("title" ∉ map fst (job_detail_selectors config))
      /\ (("url" ∉ map fst (job_detail_selectors config))
          \/ ("apply_url" ∉ map fst (job_detail_selectors config)))) ->
  Forall (fun r : job =>
            Py.truthy_opt (r !! "title") = true /\ Py.truthy_opt (r !! "url") = true)
    (scrape_site config limit flag w) /\
  Forall (fun row =>
            Py.truthy (JobData.title row) = true /\ Py.truthy (JobData.url row) = true)
    (saved (mlog (machine (crawl config limit flag w)))).
Proof.
  intros Hk.
  pose proof (crawl_records config limit flag w) as Hr. simpl in Hr.
  destruct Hr as (Hf & Hret & Hsaved).
  pose proof (turns_kept (Z.to_nat limit) config limit flag (start config w)) as Hk'.
  simpl in Hk'. destruct Hk' as (_ & _ & Hsub & _).
  pose proof (turns_scanned (Z.to_nat limit) config limit flag (start config w))
    as [Hlisted _].
  set (merged := concat (map merged_page_jobs
                   (turns (Z.to_nat limit) config limit flag (start config w)))) in *.
  assert (Hkept : Forall listed (concat (map unique_page_jobs
                   (turns (Z.to_nat limit) config limit flag (start config w))))).
  { rewrite Forall_forall in Hlisted |- *. intros j Hj. apply Hlisted.
    eapply elem_of_submseteq; [exact Hj|]. by apply sublist_submseteq. }
  assert (Hall : Forall (fun m =>
            Py.truthy_opt (_sanitize_job_fields m !! "title") = true
            /\ Py.truthy_opt (_sanitize_job_fields m !! "url") = true) merged).
  { by apply (emitted_records config flag merged _ Hf). }
  split.
  - rewrite Hret. by apply Forall_map.
  - rewrite Hsaved. destruct flag; [|done].
    apply Forall_map. eapply Forall_impl; [exact Hall|].
    intros m [Ht Hu]. unfold row_of, JobData.of_dict. simpl.
    destruct (_sanitize_job_fields m !! "title"); [|done].
    destruct (_sanitize_job_fields m !! "url"); done.
Qed.

End emitted.

(** C6, as stated, fails: the detail selectors name [title], the detail
    page of the first job has no such element, and the record is emitted
    with an empty title, to the returned collection and to the sink. *)
Lemma detail_merge_blanks_title :
  let run := crawl (ip := Toy.ipaddress) (bs := acme_soup) (web := acme_web)
               acme_titled_config 1 true tt in
  map (fun j : job => j !! "title") (all_jobs run) = [Some EmptyString; Some "Operations"]
  /\ map JobData.title (saved (mlog (machine run))) = [EmptyString; "Operations"].
Proof. split; vm_compute; reflexivity. Qed.

(** The condition on the two link fields cannot be dropped: the detail
    selectors name [url] and [apply_url], the detail pages have no such
    element, and the records are emitted with an empty [url]. *)
Lemma detail_merge_blanks_url :
  let run := crawl (ip := Toy.ipaddress) (bs := acme_soup) (web := acme_web)
               acme_linked_config 1 true tt in
  map (fun j : job => j !! "url") (all_jobs run) = [Some EmptyString; Some EmptyString]
  /\ map JobData.url (saved (mlog (machine run))) = [EmptyString; EmptyString].
Proof. split; vm_compute; reflexivity. Qed.

(** The detail selectors of the profile name [url] alone: the detail pages
    blank it, and the sanitizer restores it from [apply_url]. *)
Lemma emitted_identity_preserved_witness :
  Forall (fun r : job =>
            Py.truthy_opt (r !! "title") = true /\ Py.truthy_opt (r !! "url") = true)
    (scrape_site (ip := Toy.ipaddress) (bs := acme_soup) (web := acme_web)
       acme_canonical_config 2 true tt).
Proof.
  apply (emitted_identity_preserved (ip := Toy.ipaddress) (bs := acme_soup)
           (web := acme_web) acme_canonical_config 2 true tt).
  right. split; [|right].
  - apply (bool_decide_unpack _). vm_compute. exact I.
  - apply (bool_decide_unpack _). vm_compute. exact I.
Defined.

(** ** The next-page link *)

Section paginator.
Context {ip : Ipaddress} {bs : Soup}.

(** The whole selector, suffix included, goes to the CSS engine: when the
    engine rejects it, no locator comes out, synthetic paging or not. *)
Lemma get_next_page_url_rejected (html : string) (config : Config) (url : string) :
  Py.truthy (next_page_selector (pagination config)) = true ->
  select (parse html) (next_page_selector (pagination config)) = Raised ->
  get_next_page_url html config url = None.
Proof.
  intros Hsel Hraise. unfold get_next_page_url, next_link, select_one.
  by rewrite Hsel, Hraise.
Qed.

(** A selector without suffix that selects an element with a non-empty
    [href] yields that link joined to the current locator. *)
Lemma get_next_page_url_href (html : string) (config : Config) (url : string)
  (elem : node) (rest : list node) (joined : string) :
  Py.truthy (next_page_selector (pagination config)) = true ->
  Py.contains "::attr(" (next_page_selector (pagination config)) = false ->
  select (parse html) (next_page_selector (pagination config)) = Ok (elem :: rest) ->
  Py.truthy (get elem "href") = true ->
  urllib.urljoin url (get elem "href") = Ok joined ->
  get_next_page_url html config url = Some joined.
Proof.
  intros Hsel Hplain Hfound Hhref Hjoin.
  unfold get_next_page_url, next_link, select_one.
  rewrite Hsel, Hfound. simpl. by rewrite Hplain, Hhref, Hjoin.
Qed.

End paginator.

(** C7: on the first listing page the field extractor resolves the selector
    [a.next::attr(href)] to [/jobs?p=2], yet [get_next_page_url] with that
    selector yields no locator, because it hands the selector with its
    suffix to the CSS engine; with the bare selector [a.next] it yields the
    joined link. *)
Theorem next_selector_suffix_never_resolves :
  extract_text_from_selector (bs := acme_soup)
    (parse (Soup := acme_soup) (Toy.markup page1)) "a.next::attr(href)" None = "/jobs?p=2" /\
  get_next_page_url (ip := Toy.ipaddress) (bs := acme_soup)
    (Toy.markup page1) acme_attr_config "https://acme.example/jobs" = None /\
  get_next_page_url (ip := Toy.ipaddress) (bs := acme_soup)
    (Toy.markup page1) acme_config "https://acme.example/jobs"
  = Some "https://acme.example/jobs?p=2".
Proof. repeat split; vm_compute; reflexivity. Qed.

(** ** Making links absolute *)

Section links.
Context {ip : Ipaddress} {bs : Soup} {web : World}.

Lemma scrape_job_details_fetch (job_url : string) (config : Config) (m : Machine)
  (u : string) :
  absolute_job_url config job_url = Ok u ->
  mlog (scrape_job_details job_url config m).2 = mlog m ++ [Fetch Detail u].
Proof.
  intros Hu. unfold scrape_job_details, get_page_content. rewrite Hu.
  destruct (http_get u (mworld m)) as [[h|] w]; [|done].
  by destruct (Py.truthy h).
Qed.

(** A link that begins with a slash is made absolute by the listing
    scanner and by the detail fetcher in the same way: when the
    text of the start URL contains [wd1.myworkdayjobs.com], as scheme,
    [://], network location and link written one after the other, and
    otherwise by [urljoin] against the start URL; the detail page is then
    requested at that URL. A link that does not begin with a slash is left
    as it is by both, and the detail page is requested at the link itself. *)
Theorem slash_links_resolved (config : Config) (job_data : job) (link : string)
  (m : Machine) :
  job_data !! "apply_url" = Some link ->
  (Py.startswith "/" link = true ->
     absolute_apply_url config job_data
     = (u <-! resolve config link ;! Ok (<["apply_url" := u]> job_data))
     /\ absolute_job_url config link = resolve config link
     /\ (forall u, resolve config link = Ok u ->
           mlog (scrape_job_details link config m).2 = mlog m ++ [Fetch Detail u]))
  /\ (Py.startswith "/" link = false ->
        absolute_apply_url config job_data = Ok job_data
        /\ absolute_job_url config link = Ok link
        /\ mlog (scrape_job_details link config m).2 = mlog m ++ [Fetch Detail link]).
Proof.
  intros Hlink. split; intros Hslash.
  - assert (Hjob : absolute_job_url config link = resolve config link).
    { unfold absolute_job_url, resolve, scheme_host_join. rewrite Hslash.
      by destruct (Py.contains _ _). }
    split; [|split; [done|]].
    + unfold absolute_apply_url, resolve, scheme_host_join. rewrite Hlink, Hslash.
      assert (Ht : Py.truthy link = true) by (by destruct link).
      rewrite Ht. simpl.
      destruct (Py.contains _ _); [|done].
      by destruct (urllib.urlparse _ _).
    + intros u Hu. apply scrape_job_details_fetch. by rewrite Hjob.
  - assert (Hjob : absolute_job_url config link = Ok link).
    { unfold absolute_job_url. by rewrite Hslash. }
    split; [|split; [done|]].
    + unfold absolute_apply_url. rewrite Hlink, Hslash.
      by rewrite andb_false_r.
    + by apply scrape_job_details_fetch.
Qed.

End links.

(** C8: a relative link without a leading slash is not made absolute,
    although both places are commented as converting relative URLs to
    absolute ones. With the link [job/9] the listing scanner emits the
    record with [job/9] under [apply_url] and [url], the detail fetcher
    requests [job/9] as it is, and that locator has no scheme; [urljoin]
    against the start URL of the profile, which is what the code applies to
    a link with a leading slash, gives [https://acme.example/job/9]. *)
Lemma relative_link_left_unresolved :
  map (fun j : job => (j !! "apply_url", j !! "url"))
    (scrape_job_listings (ip := Toy.ipaddress) (bs := acme_soup) (web := acme_web)
       (Toy.markup page_relative) acme_config tt).1
  = [(Some "job/9", Some "job/9")] /\
  mlog (scrape_job_details (ip := Toy.ipaddress) (bs := acme_soup) (web := acme_web)
          "job/9" acme_config acme_machine).2
  = [Fetch Detail "job/9"] /\
  urllib.pscheme <$> (match urllib.urlparse (ip := Toy.ipaddress) "job/9" EmptyString with
                      | Ok parsed => Some parsed
                      | Raised => None
                      end) = Some EmptyString /\
  urllib.urljoin (ip := Toy.ipaddress) (start_url acme_config) "job/9"
  = Ok "https://acme.example/job/9".
Proof. repeat split; vm_compute; reflexivity. Qed.

(** A rooted link against a start URL without the special host. *)
Lemma slash_links_resolved_witness :
  absolute_job_url (ip := Toy.ipaddress) acme_config "/job/1"
  = Ok "https://acme.example/job/1".
Proof.
  destruct (slash_links_resolved (ip := Toy.ipaddress) (bs := acme_soup)
              (web := acme_web) acme_config {["apply_url" := "/job/1"]} "/job/1"
              acme_machine) as [Hslash _].
  - vm_compute. reflexivity.
  - destruct Hslash as (_ & -> & _).
    + vm_compute. reflexivity.
    + vm_compute. reflexivity.
Defined.

(** ** The two resolution branches *)

Lemma append_assoc (a b c : string) : (a +:+ b) +:+ c = a +:+ b +:+ c.
Proof.
  induction a as [|x a IH]; [done|].
  change (String x ((a +:+ b) +:+ c) = String x (a +:+ b +:+ c)). by rewrite IH.
Qed.

Lemma append_empty_r (a : string) : a +:+ EmptyString = a.
Proof.
  induction a as [|x a IH]; [done|].
  change (String x (a +:+ EmptyString) = String x a). by rewrite IH.
Qed.

Lemma split_not_nil (c : ascii) (s : string) : Py.split c s ≠ [].
Proof.
  destruct s as [|a s]; simpl; [done|].
  destruct (Ascii.eqb a c); [done|]. by destruct (Py.split c s).
Qed.

Lemma join_split (c : ascii) (s : string) : Py.join c (Py.split c s) = s.
Proof.
  induction s as [|a s IH]; [done|]. simpl.
  pose proof (split_not_nil c s) as Hne.
  destruct (Ascii.eqb a c) eqn:E.
  - apply Ascii.eqb_eq in E. subst a.
    destruct (Py.split c s) as [|h t] eqn:Es; [done|].
    change (Py.join c (EmptyString :: h :: t)) with (String c (Py.join c (h :: t))).
    by rewrite IH.
  - destruct (Py.split c s) as [|h t] eqn:Es; [done|].
    destruct t as [|x r]; simpl in *; by rewrite <- IH.
Qed.

Lemma resolve_segments_plain (segments resolved : list string) :
  existsb urllib.dot_segment segments = false ->
  urllib.resolve_segments segments resolved = resolved ++ segments.
Proof.
  revert resolved. induction segments as [|seg rest IH]; intros resolved; simpl.
  - by rewrite app_nil_r.
  - intros Hdots. apply orb_false_iff in Hdots as [Hseg Hrest].
    unfold urllib.dot_segment in Hseg. apply orb_false_iff in Hseg as [H1 H2].
    rewrite H1, H2, (IH _ Hrest). by rewrite <- app_assoc.
Qed.

Lemma last_plain (segments : list string) :
  segments ≠ [] ->
  existsb urllib.dot_segment segments = false ->
  urllib.dot_segment (List.last segments EmptyString) = false.
Proof.
  induction segments as [|seg rest IH]; [done|]. intros _ Hdots.
  simpl in Hdots. apply orb_false_iff in Hdots as [Hseg Hrest].
  destruct rest as [|seg' rest']; [done|].
  change (List.last (seg :: seg' :: rest') EmptyString)
    with (List.last (seg' :: rest') EmptyString).
  by apply IH.
Qed.

Lemma split_scheme_rooted (rest : string) :
  urllib.split_scheme (String "/" rest) = None.
Proof.
  unfold urllib.split_scheme.
  by destruct (Py.find ":" (String "/" rest)) as [[|i]|].
Qed.

Section resolution.
Context {ip : Ipaddress}.

Lemma urlparse_rooted (rest sch : string) :
  sch = EmptyString \/ sch = "http" \/ sch = "https" ->
  Py.startswith "//" (String "/" rest) = false ->
  urllib.remove_unsafe (String "/" rest) = String "/" rest ->
  urllib.urlparse (String "/" rest) sch
  = match urllib.urlparse (String "/" rest) EmptyString with
    | Ok u => Ok {| urllib.pscheme := sch; urllib.pnetloc := EmptyString;
                    urllib.ppath := urllib.ppath u; urllib.pparams := urllib.pparams u;
                    urllib.pquery := urllib.pquery u;
                    urllib.pfragment := urllib.pfragment u |}
    | Raised => Raised
    end
  /\ urllib.urlparse (String "/" rest) EmptyString <> Raised.
Proof.
  intros Hsch Hslash Hsafe.
  unfold urllib.urlparse, urllib.urlsplit.
  change (Py.lstrip_by urllib.c0_or_space (String "/" rest)) with (String "/" rest).
  rewrite Hsafe, split_scheme_rooted, Hslash.
  cbn [rbind].
  destruct (if Py.has_char "#" _ then _ else _) as [url0 frag].
  destruct (if Py.has_char "?" url0 then _ else _) as [url1 qry].
  cbn [rbind urllib.scheme urllib.path urllib.netloc urllib.query urllib.fragment].
  change (urllib.remove_unsafe (Py.strip_by urllib.c0_or_space EmptyString))
    with EmptyString.
  change (urllib.mem EmptyString urllib.uses_params) with true.
  destruct Hsch as [-> | [-> | ->]].
  - change (urllib.remove_unsafe (Py.strip_by urllib.c0_or_space EmptyString))
      with EmptyString.
    change (urllib.mem EmptyString urllib.uses_params) with true.
    by destruct (if true && Py.has_char ";" url1 then _ else _).
  - change (urllib.remove_unsafe (Py.strip_by urllib.c0_or_space "http")) with "http".
    change (urllib.mem "http" urllib.uses_params) with true.
    by destruct (if true && Py.has_char ";" url1 then _ else _).
  - change (urllib.remove_unsafe (Py.strip_by urllib.c0_or_space "https")) with "https".
    change (urllib.mem "https" urllib.uses_params) with true.
    by destruct (if true && Py.has_char ";" url1 then _ else _).
Qed.


Lemma urlunparse_rooted (sch net P pa q f : string) :
  sch = "http" \/ sch = "https" ->
  Py.startswith "/" P = true ->
  Py.startswith "//" (if Py.truthy pa then P +:+ ";" +:+ pa else P) = false ->
  urllib.urlunparse sch net P pa q f
  = sch +:+ "://" +:+ net +:+ urllib.urlunparse EmptyString EmptyString P pa q f.
Proof.
  intros Hsch HP Hnot.
  unfold urllib.urlunparse, urllib.urlunsplit.
  set (url := if Py.truthy pa then P +:+ ";" +:+ pa else P) in *.
  assert (Hurl : Py.startswith "/" url = true).
  { unfold url. destruct P as [|c P']; [done|]. by destruct (Py.truthy pa). }
  assert (Htruthy : Py.truthy url = true) by (by destruct url).
  rewrite Hnot, Hurl, Htruthy.
  change (Py.truthy EmptyString) with false. cbn [orb andb negb].
  assert (Hsch' : Py.truthy sch && urllib.mem sch urllib.uses_netloc = true)
    by (by destruct Hsch as [-> | ->]).
  assert (Hsch'' : Py.truthy sch = true) by (by destruct Hsch as [-> | ->]).
  rewrite Hsch', Hsch''. rewrite orb_true_r. cbn [andb].
  assert (Hpre : forall x, sch +:+ ":" +:+ "//" +:+ net +:+ x
                           = sch +:+ "://" +:+ net +:+ x) by done.
  rewrite !Hpre.
  destruct (Py.truthy f), (Py.truthy q); by rewrite ?append_assoc.
Qed.

Lemma reassembled_shape (rest : string) (u : urllib.ParseResult) :
  Py.startswith "//" (String "/" rest) = false ->
  urllib.urlunparse EmptyString EmptyString (urllib.ppath u) (urllib.pparams u)
    (urllib.pquery u) (urllib.pfragment u) = String "/" rest ->
  Py.startswith "/" (urllib.ppath u) = true
  /\ Py.startswith "//"
       (if Py.truthy (urllib.pparams u)
        then urllib.ppath u +:+ ";" +:+ urllib.pparams u
        else urllib.ppath u) = false.
Proof.
  intros Hslash. unfold urllib.urlunparse, urllib.urlunsplit.
  change (Py.truthy EmptyString) with false. cbn [orb andb].
  destruct u as [sch net P pa q f]. cbn [urllib.ppath urllib.pparams urllib.pquery urllib.pfragment].
  destruct P as [|c P'].
  - destruct (Py.truthy f), (Py.truthy q), (Py.truthy pa) eqn:Hpa;
      intros Heq; lazy in Heq; discriminate.
  - destruct P' as [|d P''].
    + intros Heq.
      assert (Hc : c = "/"%char).
      { destruct (Py.truthy f), (Py.truthy q), (Py.truthy pa);
          lazy in Heq; by injection Heq as -> _. }
      subst c. split; [done|]. by destruct (Py.truthy pa).
    + intros Heq.
      assert (Hcd : c = "/"%char /\ exists tail, rest = String d tail).
      { destruct (Py.truthy f), (Py.truthy q), (Py.truthy pa);
          lazy in Heq; injection Heq as -> <-; eauto. }
      destruct Hcd as [-> [tail ->]]. split; [done|].
      destruct (Py.truthy pa); exact Hslash.
Qed.

(** C10, amended: for a start URL that parses with scheme [http] or
    [https], and a link that begins with exactly one slash, holds no tab,
    carriage return or line feed, has no [.] or [..] segment in its path, and
    comes out of a parse and reassembly unchanged (no empty parameter, query
    or fragment part), the branch that writes scheme, [://], network location
    and link one after the other and the [urljoin] branch compute the same
    URL; so on such inputs the resolution does not depend on the branch
    taken. *)
Theorem spa_join_agree (base link : string) (b : urllib.ParseResult) :
  urllib.urlparse base EmptyString = Ok b ->
  urllib.pscheme b = "http" \/ urllib.pscheme b = "https" ->
  Py.startswith "/" link = true ->
  Py.startswith "//" link = false ->
  urllib.remove_unsafe link = link ->
  urllib.has_dot_segment link = false ->
  urllib.reassembled link = Ok link ->
  scheme_host_join base link = urllib.urljoin base link
  /\ urllib.urljoin base link
     = Ok (urllib.pscheme b +:+ "://" +:+ urllib.pnetloc b +:+ link)
  /\ (forall config : Config,
        start_url config = base -> resolve config link = urllib.urljoin base link).
Proof.
  intros Hb Hsch Hroot Hslash Hsafe Hdots Hre.
  destruct link as [|c rest]; [done|].
  assert (Hc : c = "/"%char).
  { simpl in Hroot. rewrite andb_true_r in Hroot. symmetry. by apply Ascii.eqb_eq. }
  subst c.
  destruct (urlparse_rooted rest (urllib.pscheme b)) as [Hu Hok]; [tauto|done|done|].
  destruct (urllib.urlparse (String "/" rest) EmptyString) as [u|] eqn:Eu; [|done].
  unfold urllib.has_dot_segment in Hdots. rewrite Eu in Hdots.
  unfold urllib.reassembled in Hre. rewrite Eu in Hre. cbn [rbind] in Hre.
  injection Hre as Hre.
  destruct (reassembled_shape rest u Hslash Hre) as [HP Hnn].
  assert (Hbase : Py.truthy base = true).
  { destruct base; [|done]. lazy in Hb. injection Hb as <-.
    simpl in Hsch. by destruct Hsch. }
  assert (Hjoin : urllib.urljoin base (String "/" rest)
                  = Ok (urllib.pscheme b +:+ "://" +:+ urllib.pnetloc b
                        +:+ String "/" rest)).
  { unfold urllib.urljoin. rewrite Hbase, Hb. cbn [negb rbind].
    change (Py.truthy (String "/" rest)) with true. cbn [negb].
    rewrite Hu. cbn [rbind urllib.pscheme urllib.pnetloc urllib.ppath
                       urllib.pparams urllib.pquery urllib.pfragment].
    rewrite String.eqb_refl.
    assert (Hrel : urllib.mem (urllib.pscheme b) urllib.uses_relative = true)
      by (by destruct Hsch as [-> | ->]).
    assert (Hnet : urllib.mem (urllib.pscheme b) urllib.uses_netloc = true)
      by (by destruct Hsch as [-> | ->]).
    rewrite Hrel, Hnet. cbn [negb orb andb].
    change (Py.truthy EmptyString) with false. cbn [negb orb andb].
    assert (Hpath : Py.truthy (urllib.ppath u) = true)
      by (by destruct (urllib.ppath u)).
    rewrite Hpath, HP. cbn [negb andb].
    rewrite resolve_segments_plain by done. rewrite app_nil_l.
    pose proof (last_plain _ (split_not_nil "/" (urllib.ppath u)) Hdots) as Hlast.
    unfold urllib.dot_segment in Hlast. rewrite Hlast.
    rewrite join_split, Hpath.
    rewrite urlunparse_rooted by done. by rewrite Hre. }
  assert (Hspa : scheme_host_join base (String "/" rest)
                 = urllib.urljoin base (String "/" rest)).
  { rewrite Hjoin. unfold scheme_host_join. by rewrite Hb. }
  split; [done|]. split; [done|].
  intros config <-. unfold resolve. by destruct (Py.contains _ _).
Qed.

End resolution.

(** C10, as stated, fails: for a link that begins with two slashes the two
    branches compute different URLs, and so they do for a link with a [..]
    segment. *)
Lemma spa_join_differ :
  let base := "https://acme.wd1.myworkdayjobs.com/careers" in
  scheme_host_join (ip := Toy.ipaddress) base "//cdn.example.com/job/1"
    = Ok "https://acme.wd1.myworkdayjobs.com//cdn.example.com/job/1" /\
  urllib.urljoin (ip := Toy.ipaddress) base "//cdn.example.com/job/1"
    = Ok "https://cdn.example.com/job/1" /\
  scheme_host_join (ip := Toy.ipaddress) base "/en/../job/1"
    = Ok "https://acme.wd1.myworkdayjobs.com/en/../job/1" /\
  urllib.urljoin (ip := Toy.ipaddress) base "/en/../job/1"
    = Ok "https://acme.wd1.myworkdayjobs.com/job/1".
Proof. repeat split; vm_compute; reflexivity. Qed.

(** A rooted link with parameters, query and fragment. *)
Lemma spa_join_agree_witness :
  scheme_host_join (ip := Toy.ipaddress)
    "https://acme.wd1.myworkdayjobs.com/careers" "/job/1;v=2?src=feed#apply"
  = urllib.urljoin (ip := Toy.ipaddress)
      "https://acme.wd1.myworkdayjobs.com/careers" "/job/1;v=2?src=feed#apply".
Proof.
  apply (spa_join_agree (ip := Toy.ipaddress)
           "https://acme.wd1.myworkdayjobs.com/careers" "/job/1;v=2?src=feed#apply"
           {| urllib.pscheme := "https";
              urllib.pnetloc := "acme.wd1.myworkdayjobs.com";
              urllib.ppath := "/careers"; urllib.pparams := EmptyString;
              urllib.pquery := EmptyString; urllib.pfragment := EmptyString |}).
  - vm_compute. reflexivity.
  - right. reflexivity.
  - vm_compute. reflexivity.
  - vm_compute. reflexivity.
  - vm_compute. reflexivity.
  - vm_compute. reflexivity.
  - vm_compute. reflexivity.
Defined.

(** * Further properties of the code *)

(** ** Sanitized records *)

Lemma map_aliases_canonical (d : job) :
  (forall k, is_Some (d !! k) -> k ∈ JobData.fields) -> map_aliases d = d.
Proof.
  intros Hd.
  assert (Hno : forall k, k ∉ JobData.fields -> d !! k = None).
  { intros k Hk. destruct (d !! k) eqn:E; [|done]. destruct Hk. apply Hd. by rewrite E. }
  unfold map_aliases.
  rewrite (Hno "date_posted"), (Hno "apply_url"); [done | |].
  - intros Hin. apply allowed_fields in Hin. by vm_compute in Hin.
  - intros Hin. apply allowed_fields in Hin. by vm_compute in Hin.
Qed.

Lemma sanitize_canonical (d : job) :
  (forall k, is_Some (d !! k) -> k ∈ JobData.fields) -> _sanitize_job_fields d = d.
Proof.
  intros Hd. apply map_eq. intros k. rewrite sanitize_lookup.
  rewrite (map_aliases_canonical d Hd).
  destruct (allowed k) eqn:Hk; [done|].
  destruct (d !! k) eqn:E; [|done].
  assert (Hin : k ∈ JobData.fields) by (apply Hd; by rewrite E).
  apply allowed_fields in Hin. congruence.
Qed.

Lemma sanitize_keys (d : job) (k : string) :
  is_Some (_sanitize_job_fields d !! k) -> k ∈ JobData.fields.
Proof.
  intros [v Hv]. rewrite sanitize_lookup in Hv.
  destruct (allowed k) eqn:Hk; [|done]. by apply allowed_fields.
Qed.

(** X1: sanitizing twice is sanitizing once; what [_sanitize_job_fields]
    returns can be given to it, or to [save_job_to_database], again. *)
Theorem sanitize_idempotent (d : job) :
  _sanitize_job_fields (_sanitize_job_fields d) = _sanitize_job_fields d.
Proof. apply sanitize_canonical. apply sanitize_keys. Qed.

Section returned.
Context {ip : Ipaddress} {bs : Soup} {web : World}.

(** X2: every record that [scrape_site] returns has canonical keys only.
    The key [apply_url], under which the scanner keeps the link, is not
    one of them: a caller that reads [job.get('apply_url', 'N/A')] gets the
    default, the link being under [url]. *)
Theorem returned_records_canonical (config : Config) (limit : Z) (flag : bool)
  (w : world) :
  Forall (fun r : job =>
            (forall k, is_Some (r !! k) -> k ∈ JobData.fields)
            /\ default "N/A" (r !! "apply_url") = "N/A"
            /\ _sanitize_job_fields r = r)
    (scrape_site config limit flag w).
Proof.
  destruct (crawl_records config limit flag w) as (_ & -> & _).
  apply Forall_map, Forall_forall. intros m _. split; [|split].
  - apply sanitize_keys.
  - rewrite sanitize_lookup. by change (allowed "apply_url") with false.
  - apply sanitize_canonical. apply sanitize_keys.
Qed.

End returned.

(** ** The listing scanner *)

Section scanner.
Context {ip : Ipaddress} {bs : Soup} {web : World}.

Lemma extract_fields_reserved (soup container : node) (sels : list (string * string))
  (d : job) (k : string) :
  k ∈ ["date_posted"; "job_container"; "job_detail_selectors"] ->
  extract_fields soup container sels d !! k = d !! k.
Proof.
  intros Hk. revert d. induction sels as [|[field selector] rest IH]; intros d; [done|].
  simpl. rewrite IH.
  destruct (String.eqb field "job_container") eqn:E1; [done|].
  destruct (String.eqb field "job_detail_selectors") eqn:E2; [done|].
  destruct (String.eqb field "date_posted") eqn:E3; simpl.
  - apply lookup_insert_ne. set_solver.
  - apply lookup_insert_ne. apply String.eqb_neq in E1, E2, E3. set_solver.
Qed.

Lemma absolute_apply_url_other (config : Config) (d d' : job) (k : string) :
  absolute_apply_url config d = Ok d' -> k ≠ "apply_url" -> d' !! k = d !! k.
Proof.
  unfold absolute_apply_url. intros Habs Hk.
  destruct (d !! "apply_url") as [a|]; [|by injection Habs as <-].
  destruct (Py.truthy a && Py.startswith "/" a); [|by injection Habs as <-].
  destruct (Py.contains _ _).
  - destruct (urllib.urlparse _ _); [|done]. injection Habs as <-.
    by rewrite lookup_insert_ne.
  - destruct (urllib.urljoin _ _); [|done]. injection Habs as <-.
    by rewrite lookup_insert_ne.
Qed.

Lemma stamp_lookup (config : Config) (now : string) (d : job) :
  stamp config now d !! "source_site" = Some (site_name config)
  /\ stamp config now d !! "scraped_at" = Some now
  /\ (forall k, k ≠ "source_site" -> k ≠ "scraped_at" -> k ≠ "url" ->
        stamp config now d !! k = d !! k).
Proof.
  unfold stamp.
  destruct (<["scraped_at":=now]> (<["source_site":=site_name config]> d) !! "apply_url")
    as [a|]; [destruct (Py.truthy a)|]; repeat split; intros; by simplify_map_eq.
Qed.

Lemma scan_containers_stamped (config : Config) (soup : node)
  (containers : list node) (seen : gset string) (w : world) :
  Forall (stamped config) (scan_containers config soup containers seen w).1.
Proof.
  revert seen w. induction containers as [|c rest IH]; intros seen w; simpl; [done|].
  destruct (absolute_apply_url config _) as [jd|] eqn:Habs; [|done].
  destruct (utcnow w) as [now w'].
  destruct (valid (stamp config now jd)) eqn:Hv; [|apply IH].
  case_bool_decide; [apply IH|].
  specialize (IH ({[apply_url_of (stamp config now jd)]} ∪ seen) w').
  destruct (scan_containers config soup rest _ w') as [jobs w'']. simpl in *.
  constructor; [|done].
  unfold valid in Hv. apply andb_true_iff in Hv as [Ht Ha].
  destruct (stamp_lookup config now jd) as (Hsite & Hat & Hother).
  assert (Hres : forall k,
             k ∈ ["date_posted"; "job_container"; "job_detail_selectors"] ->
             stamp config now jd !! k = None).
  { intros k Hk. rewrite Hother by set_solver.
    rewrite (absolute_apply_url_other config _ jd k Habs) by set_solver.
    rewrite extract_fields_reserved by done. apply lookup_empty. }
  split; [done|]. split; [done|]. split; [by apply stamp_url|].
  split; [done|]. split; [by rewrite Hat|].
  split; [|split]; apply Hres; set_solver.
Qed.

(** X3: every record that [scrape_job_listings] returns has a non-empty
    title and a non-empty [apply_url], the same link under [url], the site
    name of the profile under [source_site] and a time under [scraped_at];
    a selector named [date_posted] feeds [posted_date], so that no record
    has a key [date_posted], nor the keys of the two entries of [selectors]
    that are not fields. *)
Theorem listing_records_stamped (html : string) (config : Config) (w : world) :
  Forall (stamped config) (scrape_job_listings html config w).1.
Proof.
  unfold scrape_job_listings. destruct (select _ _); [|done].
  apply scan_containers_stamped.
Qed.

Lemma scan_containers_length (config : Config) (soup : node)
  (containers : list node) (seen : gset string) (w : world) :
  (length (scan_containers config soup containers seen w).1 <= length containers)%nat.
Proof.
  revert seen w. induction containers as [|c rest IH]; intros seen w; simpl; [done|].
  destruct (absolute_apply_url config _) as [jd|]; [|simpl; lia].
  destruct (utcnow w) as [now w'].
  destruct (valid (stamp config now jd)).
  - case_bool_decide.
    + specialize (IH seen w'). lia.
    + specialize (IH ({[apply_url_of (stamp config now jd)]} ∪ seen) w').
      destruct (scan_containers config soup rest _ w') as [jobs w'']. simpl in *. lia.
  - specialize (IH seen w'). lia.
Qed.

(** X4: a listing page yields at most one record per element that the
    container selector selects, no two of its records have the same
    [apply_url], and it yields none when the CSS engine rejects the
    container selector. *)
Theorem listing_page_records (html : string) (config : Config) (w : world) :
  let jobs := (scrape_job_listings html config w).1 in
  NoDup (map apply_url_of jobs)
  /\ match select (parse html) (job_container config) with
     | Ok containers => (length jobs <= length containers)%nat
     | Raised => jobs = []
     end.
Proof.
  simpl. split.
  - unfold scrape_job_listings. destruct (select _ _); [|constructor].
    apply scan_containers_nodup.
  - unfold scrape_job_listings. destruct (select _ _); [|done].
    apply scan_containers_length.
Qed.

(** X5: when the link of one container cannot be made absolute ([urlparse] or
    [urljoin] raises), the scan of the page ends there: the records of the
    containers before it are returned, those of the containers after it
    are lost. *)
Theorem bad_link_cuts_page (config : Config) (soup : node)
  (before after : list node) (container : node) (seen : gset string) (w : world) :
  absolute_apply_url config (extract_fields soup container (selectors config) ∅)
  = Raised ->
  (scan_containers config soup (before ++ container :: after) seen w).1
  = (scan_containers config soup before seen w).1.
Proof.
  intros Hbad. revert seen w.
  induction before as [|c rest IH]; intros seen w; simpl.
  - by rewrite Hbad.
  - destruct (absolute_apply_url config (extract_fields soup c _ _)) as [jd|]; [|done].
    destruct (utcnow w) as [now w'].
    destruct (valid (stamp config now jd)); [|apply IH].
    case_bool_decide; [apply IH|].
    specialize (IH ({[apply_url_of (stamp config now jd)]} ∪ seen) w').
    destruct (scan_containers config soup (rest ++ _) _ w') as [jobs1 w1].
    destruct (scan_containers config soup rest _ w') as [jobs2 w2].
    simpl in *. by rewrite IH.
Qed.

End scanner.

Lemma bad_link_cuts_page_witness :
  map (fun j : job => j !! "title")
    (scan_containers (ip := Toy.ipaddress) (bs := acme_soup) (web := acme_web)
       acme_config (parse (Soup := acme_soup) EmptyString)
       [Toy.card "Dev" "/job/1"; bad_card; Toy.card "Ops" "/job/2"] ∅ tt).1
  = [Some "Dev"].
Proof.
  rewrite (bad_link_cuts_page (ip := Toy.ipaddress) (bs := acme_soup) (web := acme_web)
             acme_config (parse (Soup := acme_soup) EmptyString)
             [Toy.card "Dev" "/job/1"] [Toy.card "Ops" "/job/2"] bad_card ∅ tt).
  - vm_compute. reflexivity.
  - vm_compute. reflexivity.
Defined.

(** ** The detail fetcher *)

Section details.
Context {ip : Ipaddress} {bs : Soup} {web : World}.

Lemma extract_details_keys (soup : node) (sels : list (string * string)) (d : job)
  (k : string) :
  is_Some (extract_details soup sels d !! k)
  <-> is_Some (d !! k) \/ k ∈ map fst sels.
Proof.
  revert d. induction sels as [|[f sel] rest IH]; intros d; simpl.
  - split; [by left|]. intros [?|Hin]; [done|]. by apply elem_of_nil in Hin.
  - rewrite IH. rewrite elem_of_cons. simpl.
    destruct (decide (f = k)) as [->|Hne].
    + rewrite lookup_insert_eq. split; [by right; left|eauto].
    + rewrite lookup_insert_ne by done. split; [tauto|].
      intros [?|[?|?]]; [by left | congruence | by right].
Qed.

(** X6: [scrape_job_details] never saves and requests at most one page, the
    detail page at the absolute form of the link. When the link cannot be
    made absolute nothing is requested and the result is empty; when the
    page comes back without content the result is empty; otherwise the
    result has exactly the keys that [job_detail_selectors] names, a
    selector that finds nothing giving the empty string. *)
Theorem detail_fetch_outcomes (job_url : string) (config : Config) (m : Machine) :
  let r := scrape_job_details job_url config m in
  match absolute_job_url config job_url with
  | Raised => r = (∅, m)
  | Ok u =>
      mlog r.2 = mlog m ++ [Fetch Detail u]
      /\ mworld r.2 = (http_get u (mworld m)).2
      /\ if Py.truthy_opt (http_get u (mworld m)).1
         then forall k, is_Some (r.1 !! k) <-> k ∈ map fst (job_detail_selectors config)
         else r.1 = ∅
  end.
Proof.
  unfold scrape_job_details, get_page_content.
  destruct (absolute_job_url config job_url) as [u|]; [|done].
  destruct (http_get u (mworld m)) as [[h|] w]; simpl; [|done].
  destruct (Py.truthy h); [|done]. simpl.
  split; [done|]. split; [done|].
  intros k. rewrite extract_details_keys. split; [|by right].
  intros [[v Hv]|?]; [|done]. by rewrite lookup_empty in Hv.
Qed.

End details.

(** ** The effects and the records of a crawl *)

Section run.
Context {ip : Ipaddress} {bs : Soup} {web : World}.

Lemma detail_fetches_app (l1 l2 : list Event) :
  detail_fetches (l1 ++ l2) = detail_fetches l1 ++ detail_fetches l2.
Proof. apply omap_app. Qed.

Lemma scrape_job_details_events (job_url : string) (config : Config) (m : Machine) :
  exists evs,
    mlog (scrape_job_details job_url config m).2 = mlog m ++ evs
    /\ (length (detail_fetches evs) <= 1)%nat.
Proof.
  unfold scrape_job_details, get_page_content.
  destruct (absolute_job_url config job_url) as [u|].
  - destruct (http_get u (mworld m)) as [[h|] w]; [destruct (Py.truthy h)|];
      exists [Fetch Detail u]; (split; [done | simpl; lia]).
  - exists []. rewrite app_nil_r. split; [done | simpl; lia].
Qed.

Lemma detail_pass_events (config : Config) (jobs : list job) (m : Machine) :
  exists evs,
    mlog (detail_pass config jobs m).2 = mlog m ++ evs
    /\ (length (detail_fetches evs) <= length jobs)%nat
    /\ length (detail_pass config jobs m).1 = length jobs.
Proof.
  revert m. induction jobs as [|j rest IH]; intros m; simpl.
  - exists []. by rewrite app_nil_r.
  - destruct (Py.truthy_opt (j !! "apply_url")).
    + destruct (scrape_job_details_events (apply_url_of j) config m) as (e1 & He1 & Hn1).
      destruct (scrape_job_details (apply_url_of j) config m) as [d m1]. simpl in He1.
      set (m2 := save_job_to_database (d ∪ j) m1).
      destruct (IH m2) as (e2 & He2 & Hn2 & Hlen).
      destruct (detail_pass config rest m2) as [rest' m3]. simpl in *.
      exists (e1 ++ Save (row_of (d ∪ j)) :: e2). split; [|split].
      * rewrite He2. unfold m2, save_job_to_database. simpl. rewrite He1.
        by rewrite <- !app_assoc.
      * rewrite detail_fetches_app, length_app. simpl. lia.
      * by rewrite Hlen.
    + destruct (IH m) as (e2 & He2 & Hn2 & Hlen).
      destruct (detail_pass config rest m) as [rest' m3]. simpl in *.
      exists e2. split; [done|]. split; [lia|]. by rewrite Hlen.
Qed.

Lemma scrape_page_events (config : Config) (flag : bool) (st : Crawl) :
  let p := scrape_page config flag st in
  exists evs,
    mlog (machine (page_after p))
    = mlog (machine st) ++ Fetch Listing (default EmptyString (current_url st)) :: evs
    /\ (flag = false -> evs = [])
    /\ (length (detail_fetches evs) <= length (merged_page_jobs p))%nat.
Proof.
  unfold scrape_page, get_page_content.
  destruct (http_get _ (mworld (machine st))) as [html w0].
  destruct (negb (Py.truthy_opt html)); simpl.
  - exists []. split; [done|]. split; [done | simpl; lia].
  - destruct (scrape_job_listings _ config w0) as [scanned w].
    destruct (unique_jobs scanned (seen_urls st)) as [unique seen].
    destruct flag.
    + destruct (detail_pass_events config unique
                  {| mworld := w;
                     mlog := mlog (machine st)
                             ++ [Fetch Listing (default EmptyString (current_url st))] |})
        as (evs & Hlog & Hn & Hlen).
      destruct (detail_pass config unique _) as [merged m]. simpl in *.
      exists evs. split; [|split; [done|lia]].
      rewrite Hlog. by rewrite <- app_assoc.
    + simpl. exists []. split; [done|]. split; [done | simpl; lia].
Qed.

Lemma scrape_loop_events (fuel : nat) (config : Config) (limit : Z) (flag : bool)
  (st : Crawl) :
  exists evs,
    mlog (machine (scrape_loop fuel config limit flag st)) = mlog (machine st) ++ evs
    /\ (flag = false -> evs = map (Fetch Listing) (listing_fetches evs))
    /\ (length (detail_fetches evs)
        <= length (concat (map merged_page_jobs (turns fuel config limit flag st))))%nat
    /\ (fuel ≠ O -> loop_test limit st = true ->
        exists rest,
          evs = Fetch Listing (default EmptyString (current_url st)) :: rest).
Proof.
  revert st. induction fuel as [|fuel IH]; intros st; simpl.
  - exists []. rewrite app_nil_r. split; [done|]. split; [done|].
    split; [simpl; lia | done].
  - destruct (loop_test limit st);
      [|exists []; rewrite app_nil_r; split; [done|]; split; [done|];
        split; [simpl; lia | done]].
    destruct (scrape_page_events config flag st) as (e1 & He1 & Hoff & Hn1).
    set (p := scrape_page config flag st) in *.
    destruct (page_flow p); simpl.
    + destruct (IH (page_after p)) as (e2 & He2 & Hoff2 & Hn2 & _).
      exists (Fetch Listing (default EmptyString (current_url st)) :: e1 ++ e2).
      split; [|split; [|split]].
      * rewrite He2, He1. rewrite <- app_assoc. done.
      * intros Hf. rewrite (Hoff Hf). simpl. f_equal. by apply Hoff2.
      * simpl. rewrite detail_fetches_app, !length_app. lia.
      * intros _ _. eauto.
    + exists (Fetch Listing (default EmptyString (current_url st)) :: e1).
      split; [done|]. split; [|split].
      * intros Hf. by rewrite (Hoff Hf).
      * simpl. rewrite app_nil_r. lia.
      * intros _ _. eauto.
Qed.

(** X7: with detail scraping off, a crawl requests listing pages and does
    nothing else: no detail page is requested and no row reaches the
    sink; the returned collection is the sanitized listing records that
    pass the filter of [seen_urls]. *)
Theorem listing_only_crawl (config : Config) (limit : Z) (w : world) :
  let log := mlog (machine (crawl config limit false w)) in
  log = map (Fetch Listing) (listing_fetches log)
  /\ saved log = []
  /\ detail_fetches log = []
  /\ scrape_site config limit false w
     = map _sanitize_job_fields
         (concat (map unique_page_jobs
                    (turns (Z.to_nat limit) config limit false (start config w)))).
Proof.
  simpl.
  destruct (scrape_loop_events (Z.to_nat limit) config limit false (start config w))
    as (evs & Hlog & Hoff & _).
  simpl in Hlog. fold (crawl config limit false w) in Hlog.
  specialize (Hoff eq_refl). rewrite Hlog, <- Hoff.
  split; [done|]. rewrite Hoff.
  split; [|split].
  - clear. induction (listing_fetches evs); done.
  - clear. induction (listing_fetches evs); done.
  - destruct (crawl_records config limit false w) as (Hf & -> & _).
    f_equal. set (ms := concat (map merged_page_jobs _)) in *.
    set (ks := concat (map unique_page_jobs _)) in *.
    clearbody ms ks. induction Hf as [|m j ms ks Hm _ IH]; [done|].
    destruct Hm as (d & _ & Hd & ->).
    rewrite IH, (Hd eq_refl). by rewrite (left_id_L ∅ (∪)).
Qed.

(** X8: with detail scraping on, the rows handed to [save_job_to_database]
    are the returned records, one row per record and in the same order, and
    at most one detail page is requested per record. *)
Theorem sink_mirrors_result (config : Config) (limit : Z) (w : world) :
  let log := mlog (machine (crawl config limit true w)) in
  saved log = map JobData.of_dict (scrape_site config limit true w)
  /\ (length (detail_fetches log) <= length (scrape_site config limit true w))%nat.
Proof.
  simpl.
  destruct (crawl_records config limit true w) as (_ & Hret & Hsaved).
  rewrite Hsaved, Hret. split.
  - by rewrite <- list_fmap_compose.
  - destruct (scrape_loop_events (Z.to_nat limit) config limit true (start config w))
      as (evs & Hlog & _ & Hn & _).
    simpl in Hlog. fold (crawl config limit true w) in Hlog.
    rewrite Hlog. by rewrite length_map.
Qed.

(** X9: with a budget of no page, or with an empty start URL, [scrape_site]
    returns the empty collection and has no effect at all. *)
Theorem crawl_without_budget (config : Config) (limit : Z) (flag : bool) (w : world) :
  limit <= 0 \/ start_url config = EmptyString ->
  scrape_site config limit flag w = []
  /\ crawl config limit flag w = start config w.
Proof.
  intros Hno.
  assert (Hstart : crawl config limit flag w = start config w).
  { unfold crawl. destruct (Z.to_nat limit) eqn:E; [done|]. simpl.
    assert (Ht : loop_test limit (start config w) = false).
    { unfold loop_test. simpl. destruct Hno as [Hl | ->]; [|done].
      apply andb_false_iff. right. apply Z.ltb_ge. lia. }
    by rewrite Ht. }
  split; [|done]. unfold scrape_site. by rewrite Hstart.
Qed.

(** X10: with a budget of at least one page and a start URL, the first thing
    a crawl does is to request the start URL as a listing page. *)
Theorem crawl_starts_at_start_url (config : Config) (limit : Z) (flag : bool)
  (w : world) :
  0 < limit -> start_url config ≠ EmptyString ->
  exists rest,
    mlog (machine (crawl config limit flag w))
    = Fetch Listing (start_url config) :: rest.
Proof.
  intros Hl Hs.
  destruct (scrape_loop_events (Z.to_nat limit) config limit flag (start config w))
    as (evs & Hlog & _ & _ & Hfirst).
  simpl in Hlog. fold (crawl config limit flag w) in Hlog.
  destruct Hfirst as [rest ->]; [lia| |by exists rest].
  unfold loop_test. simpl. apply andb_true_iff. split.
  - by destruct (start_url config).
  - apply Z.ltb_lt. lia.
Qed.

Lemma scrape_loop_grows (fuel : nat) (config : Config) (limit : Z) (flag : bool)
  (st : Crawl) :
  all_jobs st `prefix_of` all_jobs (scrape_loop fuel config limit flag st)
  /\ mlog (machine st) `prefix_of` mlog (machine (scrape_loop fuel config limit flag st)).
Proof.
  split.
  - rewrite scrape_loop_all_jobs. by eexists.
  - destruct (scrape_loop_events fuel config limit flag st) as (evs & -> & _).
    by eexists.
Qed.

Lemma scrape_loop_budgets (config : Config) (limit1 limit2 : Z) (flag : bool)
  (fuel1 fuel2 : nat) (st : Crawl) :
  limit1 <= limit2 ->
  (Z.to_nat (limit2 - pages_scraped st) <= fuel2)%nat ->
  all_jobs (scrape_loop fuel1 config limit1 flag st)
    `prefix_of` all_jobs (scrape_loop fuel2 config limit2 flag st)
  /\ mlog (machine (scrape_loop fuel1 config limit1 flag st))
       `prefix_of` mlog (machine (scrape_loop fuel2 config limit2 flag st)).
Proof.
  intros Hle. revert fuel2 st.
  induction fuel1 as [|fuel1 IH]; intros fuel2 st Hfuel.
  - apply scrape_loop_grows.
  - simpl. destruct (loop_test limit1 st) eqn:Ht; [|apply scrape_loop_grows].
    unfold loop_test in Ht. apply andb_true_iff in Ht as [Hurl Hlt].
    apply Z.ltb_lt in Hlt.
    destruct fuel2 as [|fuel2]; [lia|]. simpl.
    assert (Ht2 : loop_test limit2 st = true).
    { unfold loop_test. rewrite Hurl. simpl. apply Z.ltb_lt. lia. }
    rewrite Ht2.
    pose proof (scrape_page_flow config flag st) as Hp. simpl in Hp.
    destruct (page_flow (scrape_page config flag st)); [|done].
    apply IH. rewrite Hp. lia.
Qed.

(** X11: a larger page budget only adds to a crawl: from the same state of
    the world, the collection returned with the smaller budget is a prefix
    of the one returned with the larger budget, and so are the effects. *)
Theorem budget_extends_crawl (config : Config) (limit1 limit2 : Z) (flag : bool)
  (w : world) :
  limit1 <= limit2 ->
  scrape_site config limit1 flag w `prefix_of` scrape_site config limit2 flag w
  /\ mlog (machine (crawl config limit1 flag w))
       `prefix_of` mlog (machine (crawl config limit2 flag w)).
Proof.
  intros Hle. unfold scrape_site, crawl.
  apply scrape_loop_budgets; [done|]. simpl. lia.
Qed.

Lemma get_next_page_url_unset (html : string) (config : Config) (url : string) :
  Py.truthy (next_page_selector (pagination config)) = false ->
  use_javascript (pagination config) = false ->
  get_next_page_url html config url = None.
Proof.
  intros Hsel Hjs. unfold get_next_page_url, next_link. by rewrite Hsel, Hjs.
Qed.

Lemma scrape_page_next_url (config : Config) (flag : bool) (st : Crawl) :
  Py.truthy (next_page_selector (pagination config)) = false ->
  use_javascript (pagination config) = false ->
  page_flow (scrape_page config flag st) = Next ->
  current_url (page_after (scrape_page config flag st)) = None.
Proof.
  intros Hsel Hjs. unfold scrape_page.
  destruct (get_page_content Listing _ (machine st)) as [html m].
  destruct (negb (Py.truthy_opt html)); [done|].
  destruct (scrape_job_listings _ config (mworld m)) as [scanned w].
  destruct (unique_jobs scanned (seen_urls st)) as [unique seen].
  intros _.
  destruct flag; [destruct (detail_pass _ _ _)|]; simpl;
    by apply get_next_page_url_unset.
Qed.

(** X12: a profile with no next-page selector and without synthetic paging
    is crawled for one listing page at most, whatever the page budget. *)
Theorem unpaginated_profile_single_page (config : Config) (limit : Z) (flag : bool)
  (w : world) :
  Py.truthy (next_page_selector (pagination config)) = false ->
  use_javascript (pagination config) = false ->
  (length (listing_fetches (mlog (machine (crawl config limit flag w)))) <= 1)%nat
  /\ pages_scraped (crawl config limit flag w) <= 1.
Proof.
  intros Hsel Hjs.
  assert (Hturns : forall fuel st,
            (length (turns fuel config limit flag st) <= 1)%nat
            /\ pages_scraped (scrape_loop fuel config limit flag st)
               <= pages_scraped st + 1).
  { intros fuel st. destruct fuel as [|fuel]; simpl; [split; [lia|lia]|].
    destruct (loop_test limit st); [|split; simpl; lia].
    pose proof (scrape_page_next_url config flag st Hsel Hjs) as Hnone.
    pose proof (scrape_page_flow config flag st) as Hp. simpl in Hp.
    destruct (page_flow (scrape_page config flag st)); [|split; simpl; lia].
    assert (Ht : loop_test limit (page_after (scrape_page config flag st)) = false).
    { unfold loop_test. by rewrite Hnone. }
    destruct fuel as [|fuel]; simpl; [split; lia|].
    rewrite Ht. simpl. split; lia. }
  split.
  - destruct (scrape_loop_effects (Z.to_nat limit) config limit flag (start config w))
      as (_ & Hl & _).
    unfold crawl. rewrite Hl. simpl. apply Hturns.
  - unfold crawl. destruct (Hturns (Z.to_nat limit) (start config w)) as [_ Hp].
    simpl in Hp. lia.
Qed.

(** X13: detail scraping changes the fields that [job_detail_selectors]
    names and no other: in a returned record, every canonical field that
    the detail selectors do not name (the two fields with aliases apart) is
    as the listing scan found it, present with the same value or absent. *)
Theorem detail_merge_scope (config : Config) (limit : Z) (flag : bool) (w : world) :
  Forall2 (fun r j : job =>
             forall k, k ∈ JobData.fields -> k ≠ "posted_date" -> k ≠ "url" ->
               flag = false \/ k ∉ map fst (job_detail_selectors config) ->
               r !! k = j !! k)
    (scrape_site config limit flag w)
    (concat (map unique_page_jobs
               (turns (Z.to_nat limit) config limit flag (start config w)))).
Proof.
  destruct (crawl_records config limit flag w) as (Hf & -> & _).
  apply Forall2_fmap_l. eapply Forall2_impl; [exact Hf|].
  intros m j Hm k Hk H1 H2 Hnamed. simpl.
  rewrite sanitize_plain_field by done.
  by apply (merged_keeps config flag).
Qed.

End run.

Lemma crawl_without_budget_witness :
  scrape_site (ip := Toy.ipaddress) (bs := acme_soup) (web := acme_web)
    acme_config 0 true tt = []
  /\ machine (acme_crawl 0 true) = acme_machine.
Proof.
  destruct (crawl_without_budget (ip := Toy.ipaddress) (bs := acme_soup)
              (web := acme_web) acme_config 0 true tt) as [Hjobs Hrun].
  - left. lia.
  - split; [exact Hjobs|]. unfold acme_crawl. rewrite Hrun. reflexivity.
Defined.

Lemma crawl_starts_at_start_url_witness :
  exists rest,
    mlog (machine (acme_crawl 2 true))
    = Fetch Listing "https://acme.example/jobs" :: rest.
Proof.
  apply (crawl_starts_at_start_url (ip := Toy.ipaddress) (bs := acme_soup)
           (web := acme_web) acme_config 2 true tt).
  - lia.
  - vm_compute. discriminate.
Defined.

Lemma budget_extends_crawl_witness :
  scrape_site (ip := Toy.ipaddress) (bs := acme_soup) (web := acme_web)
    acme_config 1 false tt
  `prefix_of` scrape_site (ip := Toy.ipaddress) (bs := acme_soup) (web := acme_web)
                acme_config 3 false tt.
Proof.
  destruct (budget_extends_crawl (ip := Toy.ipaddress) (bs := acme_soup)
              (web := acme_web) acme_config 1 3 false tt) as [Hjobs _].
  - lia.
  - exact Hjobs.
Defined.

Lemma unpaginated_profile_single_page_witness :
  (length (listing_fetches
             (mlog (machine (crawl (ip := Toy.ipaddress) (bs := acme_soup)
                               (web := acme_web) acme_unpaged_config 5 true tt))))
   <= 1)%nat.
Proof.
  destruct (unpaginated_profile_single_page (ip := Toy.ipaddress) (bs := acme_soup)
              (web := acme_web) acme_unpaged_config 5 true tt) as [Hone _].
  - vm_compute. reflexivity.
  - vm_compute. reflexivity.
  - exact Hone.
Defined.

(** ** Synthetic paging *)

Lemma append_cons (c : ascii) (u t : string) : String c u +:+ t = String c (u +:+ t).
Proof. reflexivity. Qed.

Lemma take_digits_digits (s : string) :
  Py.forallb_str Py.isdigit (Py.take_digits s) = true.
Proof.
  induction s as [|a s IH]; [done|]. simpl.
  destruct (Py.isdigit a) eqn:E; [|done]. simpl. by rewrite E.
Qed.

Lemma int_of_digits_nonneg (s : string) (acc : Z) :
  Py.forallb_str Py.isdigit s = true -> 0 <= acc -> 0 <= Py.int_of_digits acc s.
Proof.
  revert acc. induction s as [|a s IH]; intros acc Hd Hacc; [done|].
  simpl in *. apply andb_true_iff in Hd as [Ha Hs]. apply IH; [done|].
  unfold Py.isdigit in Ha. apply andb_true_iff in Ha as [Hlo _].
  apply Nat.leb_le in Hlo. lia.
Qed.

Lemma re_search_page_digits (s d : string) :
  Py.re_search_page s = Some d -> Py.forallb_str Py.isdigit d = true.
Proof.
  induction s as [|a s IH]; simpl.
  - unfold Py.match_page_here. simpl. done.
  - unfold Py.match_page_here at 1.
    destruct (Py.startswith "page=" (String a s)).
    + destruct (Py.truthy (Py.take_digits _)) eqn:E.
      * intros [= <-]. apply take_digits_digits.
      * apply IH.
    + apply IH.
Qed.

(** X14: a locator that synthetic paging yields is the current locator
    followed by a [page] parameter whose number lies between 1 and the
    [max_pages] of the profile; in particular none is yielded when
    [max_pages] is below 1. *)
Theorem synthetic_paging_bounds (current_url next_url : string) (config : Config) :
  handle_javascript_pagination current_url config = Some next_url ->
  exists (n : Z) (shown : string),
    1 <= n <= max_pages (pagination config)
    /\ Py.str n = Ok shown
    /\ next_url
       = current_url
         +:+ (if Py.contains "?" current_url then "&page=" else "?page=") +:+ shown.
Proof.
  unfold handle_javascript_pagination.
  assert (Hpage : forall c,
            (if Py.contains "page=" current_url
             then match Py.re_search_page current_url with
                  | Some digits => Py.int digits
                  | None => Ok 1
                  end
             else Ok 1) = Ok c -> 0 <= c).
  { intros c. destruct (Py.contains "page=" current_url); [|intros [= <-]; lia].
    destruct (Py.re_search_page current_url) as [d|] eqn:Ed; [|intros [= <-]; lia].
    unfold Py.int. destruct (_ <? _)%nat; [done|]. intros [= <-].
    apply int_of_digits_nonneg; [|lia]. by apply (re_search_page_digits current_url). }
  destruct (if Py.contains "page=" current_url then _ else _) as [c|]; [|done].
  specialize (Hpage c eq_refl). cbn [rbind].
  destruct (Py.str (c + 1)) as [shown|] eqn:Es; [|done]. cbn [rbind].
  destruct (max_pages (pagination config) <? c + 1) eqn:Em; [done|].
  apply Z.ltb_ge in Em. intros [= <-].
  exists (c + 1), shown. split; [lia|]. split; [done|].
  by destruct (Py.contains "?" current_url).
Qed.

Lemma synthetic_paging_bounds_witness :
  exists (n : Z) (shown : string),
    1 <= n <= 10
    /\ Py.str n = Ok shown
    /\ "https://jobs.example.com/search?page=2&page=3"
       = "https://jobs.example.com/search?page=2" +:+ "&page=" +:+ shown.
Proof.
  apply (synthetic_paging_bounds "https://jobs.example.com/search?page=2"
           "https://jobs.example.com/search?page=2&page=3" paged_config).
  vm_compute. reflexivity.
Defined.

Lemma startswith_length (p u : string) :
  Py.startswith p u = true -> (String.length p <= String.length u)%nat.
Proof.
  revert u. induction p as [|a p IH]; intros u; simpl; [lia|].
  destruct u as [|b u]; [done|]. intros H. apply andb_true_iff in H as [_ H].
  apply IH in H. simpl. lia.
Qed.

Lemma startswith_app_long (p u t : string) :
  (String.length p <= String.length u)%nat ->
  Py.startswith p (u +:+ t) = Py.startswith p u.
Proof.
  revert u. induction p as [|a p IH]; intros u Hlen; [done|].
  destruct u as [|b u]; simpl in Hlen; [lia|].
  rewrite append_cons. simpl. rewrite IH by lia. done.
Qed.

Lemma drop_app_long (n : nat) (u t : string) :
  (n <= String.length u)%nat -> Py.drop n (u +:+ t) = Py.drop n u +:+ t.
Proof.
  revert u. induction n as [|n IH]; intros u Hlen; [done|].
  destruct u as [|b u]; simpl in Hlen; [lia|].
  rewrite append_cons. simpl. apply IH. lia.
Qed.

Lemma take_digits_app (r t : string) :
  Py.take_digits t = EmptyString -> Py.take_digits (r +:+ t) = Py.take_digits r.
Proof.
  intros Ht. induction r as [|a r IH]; [done|].
  rewrite append_cons. simpl. by rewrite IH.
Qed.

Lemma match_page_here_app (u t : string) :
  (5 <= String.length u)%nat -> Py.take_digits t = EmptyString ->
  Py.match_page_here (u +:+ t) = Py.match_page_here u.
Proof.
  intros Hlen Ht. unfold Py.match_page_here.
  rewrite startswith_app_long by (simpl; lia).
  rewrite drop_app_long by lia. by rewrite take_digits_app.
Qed.

Lemma re_search_page_length (u d : string) :
  Py.re_search_page u = Some d -> (5 <= String.length u)%nat.
Proof.
  induction u as [|a u IH]; simpl.
  - unfold Py.match_page_here. simpl. done.
  - destruct (Py.match_page_here (String a u)) eqn:E.
    + intros _. unfold Py.match_page_here in E.
      destruct (Py.startswith "page=" (String a u)) eqn:Es; [|done].
      apply startswith_length in Es. simpl in Es. simpl. lia.
    + intros H. apply IH in H. lia.
Qed.

Lemma re_search_page_app (u t d : string) :
  Py.take_digits t = EmptyString ->
  Py.re_search_page u = Some d -> Py.re_search_page (u +:+ t) = Some d.
Proof.
  intros Ht. induction u as [|a u IH].
  - simpl. unfold Py.match_page_here. simpl. done.
  - intros Hu. pose proof (re_search_page_length _ _ Hu) as Hlen.
    rewrite append_cons. simpl. rewrite <- append_cons.
    rewrite match_page_here_app by done.
    simpl in Hu. destruct (Py.match_page_here (String a u)); [done|].
    by apply IH.
Qed.

Lemma contains_app_l (p u t : string) :
  Py.contains p u = true -> Py.contains p (u +:+ t) = true.
Proof.
  unfold Py.contains. induction u as [|a u IH].
  - simpl. destruct p; [|done]. intros _. by destruct t.
  - rewrite append_cons. simpl.
    destruct (Py.startswith p (String a u)) eqn:Es.
    + intros _. pose proof (startswith_length _ _ Es) as Hlen.
      rewrite <- append_cons. rewrite startswith_app_long by done. by rewrite Es.
    + intros Hc. destruct (Py.find p u) eqn:Ef; [|done].
      specialize (IH eq_refl).
      destruct (Py.startswith p (String a (u +:+ t))); [done|].
      by destruct (Py.find p (u +:+ t)).
Qed.

Lemma contains_app_r (p u t : string) :
  Py.contains p t = true -> Py.contains p (u +:+ t) = true.
Proof.
  unfold Py.contains. intros Ht. induction u as [|a u IH]; [done|].
  rewrite append_cons. simpl.
  destruct (Py.startswith p (String a (u +:+ t))); [done|].
  by destruct (Py.find p (u +:+ t)).
Qed.

Lemma find_cons (p : string) (a : ascii) (u : string) :
  Py.find p (String a u)
  = if Py.startswith p (String a u) then Some 0%nat else S <$> Py.find p u.
Proof. reflexivity. Qed.

Lemma re_search_page_cons (a : ascii) (u : string) :
  Py.re_search_page (String a u)
  = match Py.match_page_here (String a u) with
    | Some g => Some g
    | None => Py.re_search_page u
    end.
Proof. reflexivity. Qed.

Lemma re_search_page_contains (u d : string) :
  Py.re_search_page u = Some d -> Py.contains "page=" u = true.
Proof.
  unfold Py.contains. induction u as [|a u IH]; intros H.
  - by vm_compute in H.
  - rewrite find_cons. rewrite re_search_page_cons in H.
    destruct (Py.startswith "page=" (String a u)) eqn:Es; [done|].
    unfold Py.match_page_here in H. rewrite Es in H.
    specialize (IH H). by destruct (Py.find "page=" u).
Qed.

(** X15: once the locator has a [page] parameter with a number, synthetic
    paging makes no progress: the locator it yields has the same parameter
    first, so the step after it reads the same page number and writes the
    same [&page=] parameter once more. *)
Theorem synthetic_paging_stalls (current_url next_url digits : string)
  (config : Config) :
  Py.re_search_page current_url = Some digits ->
  handle_javascript_pagination current_url config = Some next_url ->
  exists shown,
    next_url
    = current_url
      +:+ (if Py.contains "?" current_url then "&page=" else "?page=") +:+ shown
    /\ Py.re_search_page next_url = Some digits
    /\ handle_javascript_pagination next_url config
       = Some (next_url +:+ "&page=" +:+ shown).
Proof.
  intros Hd. unfold handle_javascript_pagination.
  rewrite (re_search_page_contains _ _ Hd), Hd.
  destruct (Py.int digits) as [c|] eqn:Ei; [|done]. cbn [rbind].
  destruct (Py.str (c + 1)) as [shown|] eqn:Es; [|done]. cbn [rbind].
  destruct (max_pages (pagination config) <? c + 1) eqn:Em; [done|].
  set (tail := (if Py.contains "?" current_url then "&page=" else "?page=") +:+ shown).
  assert (Hshape : (if Py.contains "?" current_url
                    then current_url +:+ "&page=" +:+ shown
                    else current_url +:+ "?page=" +:+ shown) = current_url +:+ tail).
  { unfold tail. by destruct (Py.contains "?" current_url). }
  rewrite Hshape. intros [= <-]. exists shown.
  assert (Htail : Py.take_digits tail = EmptyString).
  { unfold tail. by destruct (Py.contains "?" current_url). }
  assert (Hnext : Py.re_search_page (current_url +:+ tail) = Some digits)
    by (by apply re_search_page_app).
  assert (Hq : Py.contains "?" (current_url +:+ tail) = true).
  { destruct (Py.contains "?" current_url) eqn:Eq.
    - by apply contains_app_l.
    - apply contains_app_r. unfold tail. done. }
  split; [done|]. split; [done|].
  rewrite (re_search_page_contains _ _ Hnext), Hnext, Ei. cbn [rbind].
  rewrite Es. cbn [rbind]. by rewrite Em, Hq.
Qed.

Lemma synthetic_paging_stalls_witness :
  handle_javascript_pagination "https://jobs.example.com/search?page=2&page=3"
    paged_config
  = Some "https://jobs.example.com/search?page=2&page=3&page=3".
Proof.
  destruct (synthetic_paging_stalls "https://jobs.example.com/search?page=2"
              "https://jobs.example.com/search?page=2&page=3" "2" paged_config)
    as (shown & Hnext & _ & Hstep).
  - vm_compute. reflexivity.
  - vm_compute. reflexivity.
  - vm_compute. reflexivity.
Defined.

(** ** Several sites *)

Lemma dict_get_set (k k' : string) (v : list job) (d : results) :
  dict_get k (dict_set k' v d) = if String.eqb k k' then Some v else dict_get k d.
Proof.
  induction d as [|[k0 v0] rest IH]; simpl.
  - by destruct (String.eqb k k').
  - destruct (String.eqb k' k0) eqn:E0; simpl.
    + apply String.eqb_eq in E0. subst k0.
      by destruct (String.eqb k k').
    + destruct (String.eqb k k0) eqn:E1; [|done].
      apply String.eqb_eq in E1. subst k0.
      destruct (String.eqb k k') eqn:E2; [|done].
      apply String.eqb_eq in E2. subst k'. by rewrite String.eqb_refl in E0.
Qed.

Lemma dict_set_keys (k : string) (v : list job) (d : results) :
  map fst (dict_set k v d)
  = if bool_decide (k ∈ map fst d) then map fst d else map fst d ++ [k].
Proof.
  induction d as [|[k0 v0] rest IH]; simpl; [done|].
  destruct (String.eqb k k0) eqn:E0; simpl.
  - apply String.eqb_eq in E0. subst k0.
    rewrite bool_decide_eq_true_2; [done|]. apply elem_of_cons. by left.
  - apply String.eqb_neq in E0. rewrite IH.
    destruct (bool_decide (k ∈ map fst rest)) eqn:Eb.
    + apply bool_decide_eq_true_1 in Eb.
      rewrite bool_decide_eq_true_2; [done|]. apply elem_of_cons. by right.
    + apply bool_decide_eq_false_1 in Eb.
      rewrite bool_decide_eq_false_2; [done|].
      intros Hin. apply elem_of_cons in Hin as [? | ?]; done.
Qed.

Lemma dict_set_fresh (k : string) (v : list job) (d : results) :
  k ∉ map fst d -> dict_set k v d = d ++ [(k, v)].
Proof.
  induction d as [|[k0 v0] rest IH]; simpl; [done|]. intros Hk.
  apply not_elem_of_cons in Hk as [Hne Hk].
  apply String.eqb_neq in Hne. rewrite Hne. by rewrite IH.
Qed.

Section several.
Context {ip : Ipaddress} {bs : Soup} {web : World} {dir : ConfigDir}.

Lemma scrape_sites_entries (files : list string) (limit : Z) (out0 : results)
  (m : Machine) :
  let out := (scrape_sites files limit out0 m).1 in
  (NoDup (map fst out0) -> NoDup (map fst out))
  /\ (forall f, f ∈ map fst out <-> f ∈ map fst out0 \/ f ∈ files)
  /\ (forall f, f ∈ files -> load_config f = None -> dict_get f out = Some [])
  /\ (forall f, f ∉ files -> dict_get f out = dict_get f out0).
Proof.
  revert out0 m. induction files as [|file rest IH]; intros out0 m; simpl.
  - split; [done|]. split; [|split; [|done]].
    + intros f. split; [by left|]. intros [? | Hin]; [done|]. by apply elem_of_nil in Hin.
    + intros f Hin. by apply elem_of_nil in Hin.
  - destruct (scrape_site_file file limit m) as [jobs m1] eqn:Es.
    destruct (IH (dict_set file jobs out0) m1) as (Hnd & Hkeys & Hnone & Hother).
    split; [|split; [|split]].
    + intros H0. apply Hnd. rewrite dict_set_keys. case_bool_decide; [done|].
      apply NoDup_app. split; [done|]. split; [|apply NoDup_singleton].
      intros x Hx Hx'. apply list_elem_of_singleton in Hx'. by subst x.
    + intros f. rewrite Hkeys, dict_set_keys, elem_of_cons.
      case_bool_decide as Hin.
      * split; [tauto|]. intros [? | [-> | ?]]; tauto.
      * rewrite elem_of_app, list_elem_of_singleton. tauto.
    + intros f Hin Hload. destruct (decide (f ∈ rest)) as [Hr|Hr]; [by apply Hnone|].
      rewrite (Hother f Hr). apply elem_of_cons in Hin as [-> | ?]; [|done].
      rewrite dict_get_set, String.eqb_refl.
      unfold scrape_site_file in Es. rewrite Hload in Es. by injection Es as <- _.
    + intros f Hf. apply not_elem_of_cons in Hf as [Hne Hr].
      rewrite (Hother f Hr), dict_get_set.
      apply String.eqb_neq in Hne. by rewrite Hne.
Qed.

(** X16: [scrape_multiple_sites] returns one entry per configuration file
    named, whether the file is named once or several times and whether its
    crawl found anything; the entry of a file that does not load is the
    empty list, and the run goes on with the files after it. *)
Theorem multiple_sites_entries (files : list string) (limit : Z) (m : Machine) :
  let out := (scrape_multiple_sites files limit m).1 in
  NoDup (map fst out)
  /\ (forall f, f ∈ map fst out <-> f ∈ files)
  /\ (forall f, f ∈ files -> load_config f = None -> dict_get f out = Some []).
Proof.
  destruct (scrape_sites_entries files limit [] m) as (Hnd & Hkeys & Hnone & _).
  unfold scrape_multiple_sites. simpl in *.
  split; [apply Hnd; constructor|]. split; [|done].
  intros f. rewrite Hkeys. split; [|by right].
  intros [Hin | ?]; [|done]. by apply elem_of_nil in Hin.
Qed.

Lemma scrape_site_file_saved (file : string) (limit : Z) (m : Machine) :
  saved (mlog (scrape_site_file file limit m).2)
  = saved (mlog m) ++ map JobData.of_dict (scrape_site_file file limit m).1.
Proof.
  unfold scrape_site_file. destruct (load_config file) as [config|]; simpl.
  - rewrite saved_app. f_equal.
    destruct (crawl_records config limit true (mworld m)) as (_ & Hret & Hsaved).
    unfold scrape_site in Hret. rewrite Hsaved, Hret.
    by rewrite <- list_fmap_compose.
  - by rewrite app_nil_r.
Qed.

Lemma scrape_sites_saved (files : list string) (limit : Z) (out0 : results)
  (m : Machine) :
  NoDup files -> (forall f, f ∈ files -> f ∉ map fst out0) ->
  exists added,
    (scrape_sites files limit out0 m).1 = out0 ++ added
    /\ map fst added = files
    /\ saved (mlog (scrape_sites files limit out0 m).2)
       = saved (mlog m) ++ map JobData.of_dict (concat (map snd added)).
Proof.
  revert out0 m. induction files as [|file rest IH]; intros out0 m Hnd Hfresh; simpl.
  - exists []. by rewrite !app_nil_r.
  - apply NoDup_cons in Hnd as [Hfile Hrest].
    pose proof (scrape_site_file_saved file limit m) as Hs.
    destruct (scrape_site_file file limit m) as [jobs m1]. simpl in Hs.
    rewrite dict_set_fresh by (apply Hfresh; apply elem_of_cons; by left).
    destruct (IH (out0 ++ [(file, jobs)]) m1 Hrest) as (added & Hout & Hkeys & Hsaved).
    { intros f Hf. rewrite map_app, elem_of_app. simpl.
      rewrite list_elem_of_singleton. intros [Hin | ->]; [|done].
      revert Hin. apply Hfresh. apply elem_of_cons. by right. }
    exists ((file, jobs) :: added). split; [|split].
    + rewrite Hout. by rewrite <- app_assoc.
    + simpl. by rewrite Hkeys.
    + rewrite Hsaved, Hs. simpl. by rewrite map_app, app_assoc.
Qed.

(** X17: when no configuration file is named twice, the entries of the
    result follow the order of the files, and the rows handed to
    [save_job_to_database] during the run are the records of the result,
    site after site and in order. *)
Theorem multiple_sites_sink (files : list string) (limit : Z) (m : Machine) :
  NoDup files ->
  let r := scrape_multiple_sites files limit m in
  map fst r.1 = files
  /\ saved (mlog r.2)
     = saved (mlog m) ++ map JobData.of_dict (concat (map snd r.1)).
Proof.
  intros Hnd. simpl. unfold scrape_multiple_sites.
  destruct (scrape_sites_saved files limit [] m Hnd) as (added & Hout & Hkeys & Hsaved).
  { intros f _ Hin. by apply elem_of_nil in Hin. }
  rewrite Hout, Hsaved. done.
Qed.

End several.

Lemma multiple_sites_sink_witness :
  map fst (scrape_multiple_sites (ip := Toy.ipaddress) (bs := acme_soup)
             (web := acme_web) (dir := acme_dir)
             ["acme.yaml"; "missing.yaml"] 1 acme_machine).1
  = ["acme.yaml"; "missing.yaml"].
Proof.
  destruct (multiple_sites_sink (ip := Toy.ipaddress) (bs := acme_soup)
              (web := acme_web) (dir := acme_dir)
              ["acme.yaml"; "missing.yaml"] 1 acme_machine) as [Hkeys _].
  - apply (bool_decide_unpack _). vm_compute. exact I.
  - exact Hkeys.
Defined.

(** ** The export *)

Lemma relabel_labels (out : results) :
  Forall (fun entry => Forall (fun j : job => j !! "source_site" = Some entry.1) entry.2)
    (relabel out).
Proof.
  unfold relabel. apply Forall_map, Forall_forall. intros [site jobs] _. simpl.
  apply Forall_map, Forall_forall. intros j _. simpl. apply lookup_insert_eq.
Qed.

(** X18: the CSV export writes one row per record of [results], site after
    site, and puts the name of the configuration file under [source_site]
    in every row, in place of the site name that the scanner had put there;
    every other field of a row is as in the record. The records of
    [results] are relabelled in the same way. *)
Theorem csv_export_relabels (out : results) (format timestamp : string) :
  Py.lower format = "csv" ->
  export_results out format timestamp
  = Ok (CsvFile ("job_results_" +:+ timestamp +:+ ".csv") (flatten out), relabel out)
  /\ Forall2 (fun row (original : string * job) =>
                row !! "source_site" = Some original.1
                /\ forall k, k ≠ "source_site" -> row !! k = original.2 !! k)
       (flatten out)
       (concat (map (fun entry => map (pair entry.1) entry.2) out))
  /\ map fst (relabel out) = map fst out.
Proof.
  intros Hcsv. split; [|split].
  - unfold export_results. by rewrite Hcsv.
  - unfold flatten, relabel. induction out as [|[site jobs] rest IH]; [constructor|].
    simpl. apply Forall2_app; [|exact IH].
    clear. induction jobs as [|j jobs IH]; constructor; [|exact IH].
    simpl. split; [apply lookup_insert_eq|].
    intros k Hk. by rewrite lookup_insert_ne.
  - unfold relabel. rewrite <- list_fmap_compose. done.
Qed.

Lemma csv_export_relabels_witness :
  export_results [("acme.yaml", [{["title" := "Dev"; "source_site" := "Acme"]}])]
    "CSV" "20240101_000000"
  = Ok (CsvFile "job_results_20240101_000000.csv"
          [{["title" := "Dev"; "source_site" := "acme.yaml"]}],
        [("acme.yaml", [{["title" := "Dev"; "source_site" := "acme.yaml"]}])]).
Proof.
  destruct (csv_export_relabels
              [("acme.yaml", [{["title" := "Dev"; "source_site" := "Acme"]}])]
              "CSV" "20240101_000000") as [Hfile _].
  - vm_compute. reflexivity.
  - rewrite Hfile. vm_compute. reflexivity.
Defined.
